(** * Verification of the law backend API (Express handlers)

    Shallow embedding of [src/unnamed/part_000] (the full backend: auth gate,
    signup, login, profile, documents, upload, simplify-jargons, health) and
    of [src/back/server.js] (the same auth gate, signup, login and profile).

    Handlers are written in a small state monad with JavaScript completions
    (normal, [return], [throw]); the external collaborators (MongoDB through
    mongoose, the file system, the model service, bcrypt, jsonwebtoken) are
    an explicit world plus an environment that says which external call
    rejects and what the model service answers. *)

From Stdlib Require Import Ascii String QArith.QArith_base Sorted.
From stdpp Require Import base option list strings gmap.

Local Open Scope string_scope.
Local Open Scope nat_scope.

(** ** Data model *)

(** A mongoose ObjectId, assigned when a model instance is constructed. *)
Definition ObjectId := nat.

(** A JavaScript number that the code only stores and copies. *)
Definition Number := Q.

(** [userSchema] *)
Record User := mkUser {
  user_id : ObjectId;
  firstName : string;
  lastName : string;
  email : string;
  password : string
}.

(** [status: enum ['uploaded', 'processing', 'analyzed', 'error']] *)
Inductive Status := uploaded | processing | analyzed | error.

Record ImportantDate := mkImportantDate {
  date_type : option string;
  date : option string
}.

Record ComplexityAnalysis := mkComplexity {
  complexity : option string;
  score : option Number;
  jargonCount : option Number;
  totalWords : option Number
}.

Record JargonInfo := mkJargonInfo {
  meaning : option string;
  occurrences : option Number;
  originalTerm : string
}.

Record JargonAnalysis := mkJargonAnalysis {
  jargonsFound : gmap string JargonInfo;
  simplifiedText : option string;
  totalJargons : Number;
  jargonSummary : option string;
  complexityAnalysis : option ComplexityAnalysis
}.

(** [documentSchema]; a field the schema gives no default is [None] until
    it is assigned, array fields start as the empty array. *)
Record Document := mkDocument {
  _id : ObjectId;
  userId : ObjectId;
  fileName : string;
  uploadDate : N;
  status : Status;
  classification : option string;
  confidence : option Number;
  keyTerms : option (list string);
  summary : option string;
  importantDates : option (list ImportantDate);
  partiesInvolved : option (list string);
  jargonAnalysis : JargonAnalysis
}.

(** The JSON bodies of the model service ([POST /classify] and
    [POST /simplify-jargons]); an absent property is [None]. *)
Module Api.

Record JargonInfo := mkJargonInfo {
  meaning : option string;
  occurrences : option Number;
  original_term : option string
}.

Record JargonAnalysis := mkJargonAnalysis {
  jargons_found : option (list (string * JargonInfo));
  simplified_text : option string;
  total_jargons : option Number;
  jargon_summary : option string;
  complexity_analysis : option ComplexityAnalysis
}.

Record ClassifyData := mkClassifyData {
  success : bool;
  classification : option string;
  confidence : option Number;
  key_terms : option (list string);
  summary : option string;
  important_dates : option (list ImportantDate);
  parties_involved : option (list string);
  jargon_analysis : option JargonAnalysis
}.

Record SimplifyData := mkSimplifyData {
  s_success : bool;
  s_original_text : option string;
  s_simplified_text : option string;
  s_jargons_found : option (list (string * JargonInfo));
  s_total_jargons : option Number;
  s_complexity_analysis : option ComplexityAnalysis;
  s_jargon_summary : option string
}.

End Api.

(** A thrown JavaScript error, with the properties the handlers read:
    [e.message], [error.code] and [error.response] (whose [data?.error] is
    the inner option). *)
Record Error := mkError {
  message : string;
  code : option string;
  response : option (option string)
}.

Definition new_Error (msg : string) : Error :=
  {| message := msg; code := None; response := None |}.

(** What [upload.single('document')] leaves in [req.file]. *)
Record File := mkFile {
  originalname : string;
  mimetype : string;
  size : N;
  path : string
}.

(** [User.findById(..).select("-password")] *)
Record PublicUser := mkPublicUser {
  pu_id : ObjectId;
  pu_firstName : string;
  pu_lastName : string;
  pu_email : string
}.

Inductive Body :=
| Message (m : string)
| MessageToken (m : string) (token : string)
| MessageDocument (m : string) (document : Document)
| UserJson (u : PublicUser)
| DocumentJson (d : Document)
| DocumentsJson (ds : list Document)
| SimplifyJson (d : Api.SimplifyData)
| HealthJson (timestamp : N)
| ErrorPage (e : Error).

Record Response := mkResponse {
  statusCode : nat;
  body : Body
}.

(** ** The world and the environment of one request *)

(** Every place where a handler calls an external collaborator that can
    reject or throw. No handler has a loop, so a request passes each place
    at most once. *)
Inductive Site :=
| SignupFindOne | SignupHash | SignupCreate
| LoginFindOne | LoginCompare | LoginSign
| ProfileFindById
| DocumentsFind
| DocumentFindOne
| UploadSaveCreated     (* part_000 line 195 *)
| UploadClassify        (* line 205 *)
| UploadSaveAnalyzed    (* line 251 *)
| UploadUnlink          (* line 254 *)
| UploadSaveError       (* line 270 *)
| UploadUnlinkError     (* line 275 *)
| SimplifyPost.

(** Accesses of the credential store, the document store, the upload
    directory and the model service, in the order they happen. *)
Inductive Event :=
| UserFindOne (e : string)
| UserCreate (e : string)
| UserFindById (i : ObjectId)
| DocumentFind (u : ObjectId)
| DocumentFindOneEv (i u : ObjectId)
| DocumentSave (i : ObjectId) (s : Status)        (* save() called *)
| DocumentPersisted (i : ObjectId) (s : Status)   (* the write is done *)
| FileWrite (p : string)
| FileUnlink (p : string)
| ModelPost (url : string).

Record World := mkWorld {
  users : list User;
  documents : list Document;
  uploads : gset string;
  next_oid : ObjectId;
  trace : list Event
}.

Record Env := mkEnv {
  now : N;                            (* clock, in seconds *)
  JWT_SECRET : string;
  throws : Site -> option Error;      (* the external call at a site fails *)
  classify_data : Api.ClassifyData;   (* response.data of POST /classify *)
  simplify_data : Api.SimplifyData;   (* response.data of POST /simplify-jargons *)
  salt : string;                      (* the salt bcrypt.hash draws *)
  upload_path : string                (* the file name multer draws *)
}.

(** ** Strings as the code uses them *)

(** [s.split(" ")] of JavaScript for a one-character separator: the pieces
    between the occurrences of the separator, empty pieces included. *)
Fixpoint split (sep : ascii) (s : string) : list string :=
  match s with
  | EmptyString => [EmptyString]
  | String a s' =>
      if Ascii.eqb a sep then EmptyString :: split sep s'
      else match split sep s' with
           | w :: ws => String a w :: ws
           | [] => [String a EmptyString]
           end
  end.

Fixpoint contains (c : ascii) (s : string) : bool :=
  match s with
  | EmptyString => false
  | String a s' => Ascii.eqb a c || contains c s'
  end.

(** JavaScript truthiness of a string that may be [undefined]. *)
Definition truthy (o : option string) : bool :=
  match o with
  | None | Some EmptyString => false
  | Some _ => true
  end.

(** [a || b] on a string that may be [undefined] *)
Definition or_string (o : option string) (d : string) : string :=
  match o with
  | Some (String a s) => String a s
  | _ => d
  end.

(** [a || 0] on a number that may be [undefined] *)
Definition or_zero (o : option Number) : Number :=
  match o with
  | Some q => if Qeq_bool q 0 then 0%Q else q
  | None => 0%Q
  end.

(** ** The libraries whose internals are out of scope *)

Class Crypto := mkCrypto {
  bcrypt_hash : string -> nat -> string -> string;
  bcrypt_compare : string -> string -> bool;
  (* jwt_sign id secret expiresIn now *)
  jwt_sign : ObjectId -> string -> N -> N -> string;
  (* jwt_verify token secret now = the [id] of the payload *)
  jwt_verify : string -> string -> N -> option ObjectId
}.

(** jsonwebtoken's contract: a token verifies under the secret it was
    signed with until its [exp] claim is reached, and it is a non-empty
    word (base64url characters and dots, so no space). *)
Class CryptoLaws (C : Crypto) : Prop := mkCryptoLaws {
  jwt_verify_sign : forall id secret expiresIn iat t,
    jwt_verify (jwt_sign id secret expiresIn iat) secret t =
      if (t <? iat + expiresIn)%N then Some id else None;
  jwt_sign_nonempty : forall id secret expiresIn iat,
    jwt_sign id secret expiresIn iat <> "";
  jwt_sign_no_space : forall id secret expiresIn iat,
    contains " " (jwt_sign id secret expiresIn iat) = false
}.

(** ** JavaScript completions and the handler monad *)

Inductive Completion (A : Type) :=
| Normal (a : A)
| Return
| Throw (e : Error).
Arguments Normal {A} a.
Arguments Return {A}.
Arguments Throw {A} e.

(** The state a handler runs on: the world, the response sent so far and
    the handler's local [tempDocument]. *)
Record HState := mkHState {
  world : World;
  sent : option Response;
  tempDocument : option Document
}.

Definition M (A : Type) : Type := HState -> Completion A * HState.

Definition ret {A} (a : A) : M A := fun s => (Normal a, s).

Definition bind {A B} (m : M A) (k : A -> M B) : M B :=
  fun s =>
    match m s with
    | (Normal a, s') => k a s'
    | (Return, s') => (Return, s')
    | (Throw e, s') => (Throw e, s')
    end.

Definition throw {A} (e : Error) : M A := fun s => (Throw e, s).

Definition return_ {A} : M A := fun s => (Return, s).

(** [try { body } catch (e) { handler e }]: only a thrown error is caught. *)
Definition try_catch {A} (body : M A) (handler : Error -> M A) : M A :=
  fun s =>
    match body s with
    | (Throw e, s') => handler e s'
    | r => r
    end.

Declare Scope js_scope.
Delimit Scope js_scope with js.
Notation "x <- m ;; k" := (bind m (fun x => k))
  (at level 100, m at next level, right associativity) : js_scope.
Notation "m ;;; k" := (bind m (fun _ => k))
  (at level 100, right associativity) : js_scope.
Local Open Scope js_scope.

Definition get_world : M World := fun s => (Normal (world s), s).

Definition put_world (w : World) : M unit :=
  fun s => (Normal tt, {| world := w; sent := sent s; tempDocument := tempDocument s |}).

Definition log (ev : Event) : M unit :=
  fun s =>
    let w := world s in
    (Normal tt,
     {| world := {| users := users w; documents := documents w; uploads := uploads w;
                    next_oid := next_oid w; trace := trace w ++ [ev] |};
        sent := sent s; tempDocument := tempDocument s |}).

(** [res.status(c).json(b)] *)
Definition respond (c : nat) (b : Body) : M unit :=
  fun s => (Normal tt,
            {| world := world s; sent := Some {| statusCode := c; body := b |};
               tempDocument := tempDocument s |}).

(** An external call at [site]: it rejects when the environment says so. *)
Definition external (env : Env) (site : Site) : M unit :=
  match throws env site with
  | Some e => throw e
  | None => ret tt
  end.

Definition get_tempDocument : M (option Document) :=
  fun s => (Normal (tempDocument s), s).

Definition set_tempDocument (d : Document) : M unit :=
  fun s => (Normal tt, {| world := world s; sent := sent s; tempDocument := Some d |}).

(** The result of running a handler: the response the application code
    sent (if any), the error that left the handler uncaught (the rejection
    of the promise an async handler returns) and the world it leaves. *)
Record Outcome := mkOutcome {
  out_response : option Response;
  out_unhandled : option Error;
  out_world : World
}.

Definition initial (w : World) : HState :=
  {| world := w; sent := None; tempDocument := None |}.

Definition run (m : M unit) (w : World) : Outcome :=
  match m (initial w) with
  | (Throw e, s) =>
      {| out_response := sent s; out_unhandled := Some e; out_world := world s |}
  | (_, s) =>
      {| out_response := sent s; out_unhandled := None; out_world := world s |}
  end.

(** ** The credential store and the document store *)

Definition with_users (us : list User) (n : ObjectId) (w : World) : World :=
  {| users := us; documents := documents w; uploads := uploads w;
     next_oid := n; trace := trace w |}.

Definition with_documents (ds : list Document) (w : World) : World :=
  {| users := users w; documents := ds; uploads := uploads w;
     next_oid := next_oid w; trace := trace w |}.

Definition with_uploads (fs : gset string) (w : World) : World :=
  {| users := users w; documents := documents w; uploads := fs;
     next_oid := next_oid w; trace := trace w |}.

Definition with_next_oid (n : ObjectId) (w : World) : World :=
  {| users := users w; documents := documents w; uploads := uploads w;
     next_oid := n; trace := trace w |}.

Definition find_user_by_email (e : string) (us : list User) : option User :=
  List.find (fun u => String.eqb (email u) e) us.

(** [User.findOne({ email })] *)
Definition User_findOne (env : Env) (site : Site) (e : string) : M (option User) :=
  log (UserFindOne e) ;;;
  external env site ;;;
  w <- get_world ;;
  ret (find_user_by_email e (users w)).

(** [User.create({...})]; [email] has a unique index. *)
Definition User_create (env : Env) (site : Site)
    (fn ln e hashed : string) : M unit :=
  log (UserCreate e) ;;;
  external env site ;;;
  w <- get_world ;;
  match find_user_by_email e (users w) with
  | Some _ =>
      throw {| message := "E11000 duplicate key error"; code := Some "11000";
               response := None |}
  | None =>
      put_world
        (with_users
           (users w ++ [{| user_id := next_oid w; firstName := fn; lastName := ln;
                           email := e; password := hashed |}])
           (S (next_oid w)) w)
  end.

(** [User.findById(id).select("-password")] *)
Definition User_findById (env : Env) (site : Site) (i : ObjectId) : M (option PublicUser) :=
  log (UserFindById i) ;;;
  external env site ;;;
  w <- get_world ;;
  ret (match List.find (fun u => Nat.eqb (user_id u) i) (users w) with
       | Some u => Some {| pu_id := user_id u; pu_firstName := firstName u;
                           pu_lastName := lastName u; pu_email := email u |}
       | None => None
       end).

(** [.sort({ uploadDate: -1 })]: newest first. *)
Fixpoint insert_desc (d : Document) (l : list Document) : list Document :=
  match l with
  | [] => [d]
  | x :: l' =>
      if (uploadDate x <=? uploadDate d)%N then d :: x :: l'
      else x :: insert_desc d l'
  end.

Definition sort_desc (l : list Document) : list Document :=
  foldr insert_desc [] l.

(** An array path of the schema that a stored record lacks. *)
Definition array_default {A} (o : option (list A)) : option (list A) :=
  match o with
  | Some l => Some l
  | None => Some []
  end.

(** What mongoose makes of a stored record when a query reads it: the
    array paths of [documentSchema] ([keyTerms], [importantDates],
    [partiesInvolved]) have the empty array as default, so a record that
    was saved without one of them (the upload assigned [undefined]) comes
    back with [[]] there; the other fields come back as they were saved. *)
Definition hydrate (d : Document) : Document :=
  {| _id := _id d; userId := userId d; fileName := fileName d;
     uploadDate := uploadDate d; status := status d;
     classification := classification d; confidence := confidence d;
     keyTerms := array_default (keyTerms d);
     summary := summary d;
     importantDates := array_default (importantDates d);
     partiesInvolved := array_default (partiesInvolved d);
     jargonAnalysis := jargonAnalysis d |}.

(** [Document.find({ userId }).sort({ uploadDate: -1 })] *)
Definition Document_find (env : Env) (site : Site) (u : ObjectId) : M (list Document) :=
  log (DocumentFind u) ;;;
  external env site ;;;
  w <- get_world ;;
  ret (map hydrate
         (sort_desc (List.filter (fun d => Nat.eqb (userId d) u) (documents w)))).

Definition find_document (i u : ObjectId) (ds : list Document) : option Document :=
  List.find (fun d => Nat.eqb (_id d) i && Nat.eqb (userId d) u) ds.

(** [Document.findOne({ _id, userId })] *)
Definition Document_findOne (env : Env) (site : Site) (i u : ObjectId) : M (option Document) :=
  log (DocumentFindOneEv i u) ;;;
  external env site ;;;
  w <- get_world ;;
  ret (option_map hydrate (find_document i u (documents w))).

(** What [save()] does to the collection: the stored copy with the same
    [_id] is replaced, a new document is inserted. *)
Fixpoint upsert (d : Document) (ds : list Document) : list Document :=
  match ds with
  | [] => [d]
  | x :: ds' => if Nat.eqb (_id x) (_id d) then d :: ds' else x :: upsert d ds'
  end.

Definition TypeError (msg : string) : Error := new_Error msg.

(** [await tempDocument.save()] *)
Definition tempDocument_save (env : Env) (site : Site) : M unit :=
  t <- get_tempDocument ;;
  match t with
  | None => throw (TypeError "Cannot read properties of null (reading 'save')")
  | Some d =>
      log (DocumentSave (_id d) (status d)) ;;;
      external env site ;;;
      w <- get_world ;;
      put_world (with_documents (upsert d (documents w)) w) ;;;
      log (DocumentPersisted (_id d) (status d))
  end.

(** ** The upload directory *)

(** [fs.existsSync(p)] *)
Definition existsSync (p : string) : M bool :=
  w <- get_world ;;
  ret (bool_decide (p ∈ uploads w)).

(** [fs.unlinkSync(p)] *)
Definition unlinkSync (env : Env) (site : Site) (p : string) : M unit :=
  log (FileUnlink p) ;;;
  external env site ;;;
  w <- get_world ;;
  if bool_decide (p ∈ uploads w)
  then put_world (with_uploads (uploads w ∖ {[p]}) w)
  else throw {| message := "ENOENT: no such file or directory";
                code := Some "ENOENT"; response := None |}.

(** ** multer: [upload.single('document')] *)

(** The file part of the multipart request, under the field name
    [document]. *)
Record FilePart := mkFilePart {
  part_originalname : string;
  part_mimetype : string;
  part_size : N
}.

(** [fileFilter] of the multer configuration: [inr true] is
    [cb(null, true)], [inl e] is [cb(e)]. *)
Definition fileFilter (file : FilePart) : Error + bool :=
  if String.eqb (part_mimetype file) "application/pdf"
  then inr true
  else inl (new_Error "Only PDF files are allowed").

(** [limits.fileSize], 10MB *)
Definition fileSize : N := 10 * 1024 * 1024.

Definition MulterError (msg c : string) : Error :=
  {| message := msg; code := Some c; response := None |}.

(** multer, as its documentation has it: the filter is asked when the file
    part starts; an accepted file is written under [dest] and described in
    [req.file]; a file larger than [limits.fileSize] is removed again and
    the error [LIMIT_FILE_SIZE] goes to [next]; without a file part
    [req.file] stays undefined. A throw here stands for [next(err)]. *)
Definition upload_single (env : Env) (part : option FilePart) : M (option File) :=
  match part with
  | None => ret None
  | Some file =>
      match fileFilter file with
      | inl e => throw e
      | inr false => ret None
      | inr true =>
          if (fileSize <? part_size file)%N
          then throw (MulterError "File too large" "LIMIT_FILE_SIZE")
          else
            log (FileWrite (upload_path env)) ;;;
            w <- get_world ;;
            put_world (with_uploads ({[upload_path env]} ∪ uploads w) w) ;;;
            ret (Some {| originalname := part_originalname file;
                         mimetype := part_mimetype file;
                         size := part_size file;
                         path := upload_path env |})
      end
  end.

(** Express's default error handler, which answers an error given to
    [next] when the application installs no error middleware (this one
    installs none): the status is [err.status] when the error has one and
    500 otherwise; neither [new Error(..)] nor a multer error has one. *)
Definition default_error_handler (e : Error) : M unit :=
  respond 500 (ErrorPage e).

(** ** The classification client: mapping the response *)

Definition convert_jargon (jargon : string) (info : Api.JargonInfo) : JargonInfo :=
  {| meaning := Api.meaning info;
     occurrences := Api.occurrences info;
     originalTerm := or_string (Api.original_term info) jargon |}.

(** The loop over [Object.entries(jargons_found)] with [Map.set]. *)
Definition convert_jargons (entries : list (string * Api.JargonInfo))
    : gmap string JargonInfo :=
  foldl (fun m e => <[fst e := convert_jargon (fst e) (snd e)]> m) ∅ entries.

Definition unknown_complexity : ComplexityAnalysis :=
  {| complexity := Some "Unknown"; score := Some 0%Q;
     jargonCount := Some 0%Q; totalWords := Some 0%Q |}.

(** [jargonAnalysisData] (lines 224-246) *)
Definition jargonAnalysisData (ja : Api.JargonAnalysis) : JargonAnalysis :=
  {| jargonsFound :=
       match Api.jargons_found ja with
       | Some found => convert_jargons found
       | None => ∅
       end;
     simplifiedText := Some (or_string (Api.simplified_text ja) "");
     totalJargons := or_zero (Api.total_jargons ja);
     jargonSummary := Some (or_string (Api.jargon_summary ja) "");
     complexityAnalysis :=
       Some (match Api.complexity_analysis ja with
             | Some c => c
             | None => unknown_complexity
             end) |}.

(** The assignments of lines 214-249 on [tempDocument]. *)
Definition apply_classification (data : Api.ClassifyData) (d : Document) : Document :=
  {| _id := _id d;
     userId := userId d;
     fileName := fileName d;
     uploadDate := uploadDate d;
     status := analyzed;
     classification := Api.classification data;
     confidence := Api.confidence data;
     keyTerms := Api.key_terms data;
     summary := Api.summary data;
     importantDates := Api.important_dates data;
     partiesInvolved := Api.parties_involved data;
     jargonAnalysis :=
       match Api.jargon_analysis data with
       | Some ja => jargonAnalysisData ja
       | None => jargonAnalysis d
       end |}.

Definition set_status (st : Status) (d : Document) : Document :=
  {| _id := _id d; userId := userId d; fileName := fileName d;
     uploadDate := uploadDate d; status := st;
     classification := classification d; confidence := confidence d;
     keyTerms := keyTerms d; summary := summary d;
     importantDates := importantDates d; partiesInvolved := partiesInvolved d;
     jargonAnalysis := jargonAnalysis d |}.

(** [new Document({ userId, fileName, status })]: mongoose draws the
    [_id] and fills the schema defaults. *)
Definition new_Document (env : Env) (u : ObjectId) (name : string) (st : Status)
    : M Document :=
  w <- get_world ;;
  put_world (with_next_oid (S (next_oid w)) w) ;;;
  ret {| _id := next_oid w; userId := u; fileName := name;
         uploadDate := now env; status := st;
         classification := None; confidence := None;
         keyTerms := Some []; summary := None;
         importantDates := Some []; partiesInvolved := Some [];
         jargonAnalysis :=
           {| jargonsFound := ∅; simplifiedText := None; totalJargons := 0%Q;
              jargonSummary := None; complexityAnalysis := None |} |}.

(** [axios.post(modelApiUrl, formData, { timeout: 30000 })] *)
Definition post_classify (env : Env) (f : File) : M Api.ClassifyData :=
  log (ModelPost "http://localhost:5001/classify") ;;;
  external env UploadClassify ;;;
  ret (classify_data env).

(** [axios.post('http://localhost:5001/simplify-jargons', { text })] *)
Definition post_simplify (env : Env) (text : string) : M Api.SimplifyData :=
  log (ModelPost "http://localhost:5001/simplify-jargons") ;;;
  external env SimplifyPost ;;;
  ret (simplify_data env).

(** The message of the catch blocks of upload and simplify-jargons. *)
Definition errorMessage (generic on_response : string) (e : Error) : string :=
  if bool_decide (code e = Some "ECONNREFUSED")
  then "Model service is not available. Please try again later."
  else match response e with
       | Some data_error => or_string data_error on_response
       | None => generic
       end.

(** ** The handlers *)

Section Handlers.

Context {C : Crypto}.

(** [jwt.verify(token, process.env.JWT_SECRET)], which throws on a token
    that is malformed, wrongly signed or expired. *)
Definition verify (env : Env) (token : string) : M ObjectId :=
  match jwt_verify token (JWT_SECRET env) (now env) with
  | Some id => ret id
  | None => throw (new_Error "invalid token")
  end.

(** [req.headers.authorization?.split(" ")[1]] *)
Definition header_token (authorization : option string) : option string :=
  match authorization with
  | Some h => split " " h !! 1
  | None => None
  end.

(** [authMiddleware]; the normal completion carries [req.user] and stands
    for the call of [next()], every other completion ends the request with
    the response that was sent. *)
Definition authMiddleware (env : Env) (authorization : option string) : M ObjectId :=
  try_catch
    (match header_token authorization with
     | Some (String a t) => verify env (String a t)
     | _ =>
         respond 401 (Message "No token provided, authorization denied") ;;;
         return_
     end)
    (fun err => respond 401 (Message "Token is not valid") ;;; return_).

(** [expiresIn: "1h"], in seconds *)
Definition expiresIn : N := 3600.

(** [app.post("/signup")] *)
Definition signup (env : Env) (fn ln e pw : string) : M unit :=
  try_catch
    (exists_ <- User_findOne env SignupFindOne e ;;
     match exists_ with
     | Some _ => respond 400 (Message "User already exists") ;;; return_
     | None =>
         external env SignupHash ;;;
         User_create env SignupCreate fn ln e (bcrypt_hash pw 10 (salt env)) ;;;
         respond 201 (Message "User registered successfully")
     end)
    (fun err => respond 500 (Message (message err))).

(** [app.post("/login")] *)
Definition login (env : Env) (e pw : string) : M unit :=
  try_catch
    (user <- User_findOne env LoginFindOne e ;;
     match user with
     | None => respond 400 (Message "Invalid credentials") ;;; return_
     | Some u =>
         external env LoginCompare ;;;
         if bcrypt_compare pw (password u)
         then
           external env LoginSign ;;;
           respond 200
             (MessageToken "Login successful"
                (jwt_sign (user_id u) (JWT_SECRET env) expiresIn (now env)))
         else respond 400 (Message "Invalid credentials") ;;; return_
     end)
    (fun err => respond 500 (Message (message err))).

(** [app.get("/profile")], after the auth gate *)
Definition profile (env : Env) (req_user : ObjectId) : M unit :=
  try_catch
    (user <- User_findById env ProfileFindById req_user ;;
     match user with
     | None => respond 404 (Message "User not found") ;;; return_
     | Some u => respond 200 (UserJson u)
     end)
    (fun err => respond 500 (Message (message err))).

(** [app.get("/documents")], after the auth gate *)
Definition list_documents (env : Env) (req_user : ObjectId) : M unit :=
  try_catch
    (ds <- Document_find env DocumentsFind req_user ;;
     respond 200 (DocumentsJson ds))
    (fun err => respond 500 (Message (message err))).

(** [app.get("/documents/:id")], after the auth gate *)
Definition get_document (env : Env) (req_user : ObjectId) (id : ObjectId) : M unit :=
  try_catch
    (document <- Document_findOne env DocumentFindOne id req_user ;;
     match document with
     | None => respond 404 (Message "Document not found") ;;; return_
     | Some d => respond 200 (DocumentJson d)
     end)
    (fun err => respond 500 (Message (message err))).

(** The handler of [app.post("/upload")], after the auth gate and multer's
    [upload.single('document')] *)
Definition upload_handler (env : Env) (req_user : ObjectId) (req_file : option File)
    : M unit :=
  try_catch
    (match req_file with
     | None => respond 400 (Message "No document file uploaded") ;;; return_
     | Some f =>
         d <- new_Document env req_user (originalname f) processing ;;
         set_tempDocument d ;;;
         tempDocument_save env UploadSaveCreated ;;;
         data <- post_classify env f ;;
         if Api.success data
         then
           t <- get_tempDocument ;;
           match t with
           | Some d1 => set_tempDocument (apply_classification data d1)
           | None => throw (TypeError "Cannot set properties of null")
           end ;;;
           tempDocument_save env UploadSaveAnalyzed ;;;
           unlinkSync env UploadUnlink (path f) ;;;
           t' <- get_tempDocument ;;
           match t' with
           | Some d2 =>
               respond 200
                 (MessageDocument "Document uploaded and analyzed successfully" d2)
           | None => throw (TypeError "Cannot read properties of null")
           end
         else throw (new_Error "Model classification failed")
     end)
    (fun err =>
       t <- get_tempDocument ;;
       match t with
       | Some d =>
           set_tempDocument (set_status error d) ;;;
           tempDocument_save env UploadSaveError
       | None => ret tt
       end ;;;
       match req_file with
       | Some f =>
           present <- existsSync (path f) ;;
           if present then unlinkSync env UploadUnlinkError (path f) else ret tt
       | None => ret tt
       end ;;;
       respond 500
         (Message (errorMessage "Document processing failed" "Model processing error"
                     err))).

(** [app.post("/simplify-jargons")], after the auth gate *)
Definition simplify_jargons (env : Env) (text : option string) : M unit :=
  try_catch
    (match text with
     | Some (String a t) =>
         data <- post_simplify env (String a t) ;;
         if Api.s_success data
         then
           respond 200
             (SimplifyJson
                {| Api.s_success := true;
                   Api.s_original_text := Api.s_original_text data;
                   Api.s_simplified_text := Api.s_simplified_text data;
                   Api.s_jargons_found := Api.s_jargons_found data;
                   Api.s_total_jargons := Api.s_total_jargons data;
                   Api.s_complexity_analysis := Api.s_complexity_analysis data;
                   Api.s_jargon_summary := Api.s_jargon_summary data |})
         else throw (new_Error "Jargon simplification failed")
     | _ => respond 400 (Message "No text provided") ;;; return_
     end)
    (fun err =>
       respond 500
         (Message (errorMessage "Jargon simplification failed"
                     "Jargon simplification error" err))).

(** [app.get("/health")] *)
Definition health (env : Env) : M unit :=
  respond 200 (HealthJson (now env)).

(** ** Routes: the middleware chain in front of each handler *)

Inductive Request :=
| PostSignup (firstName lastName email password : string)
| PostLogin (email password : string)
| GetProfile (authorization : option string)
| GetDocuments (authorization : option string)
| GetDocument (authorization : option string) (id : ObjectId)
| PostUpload (authorization : option string) (document : option FilePart)
| PostSimplifyJargons (authorization : option string) (text : option string)
| GetHealth.

Definition route (env : Env) (req : Request) : M unit :=
  match req with
  | PostSignup fn ln e pw => signup env fn ln e pw
  | PostLogin e pw => login env e pw
  | GetProfile h => req_user <- authMiddleware env h ;; profile env req_user
  | GetDocuments h => req_user <- authMiddleware env h ;; list_documents env req_user
  | GetDocument h id => req_user <- authMiddleware env h ;; get_document env req_user id
  | PostUpload h part =>
      req_user <- authMiddleware env h ;;
      req_file <- try_catch (upload_single env part)
                    (fun err => default_error_handler err ;;; return_) ;;
      upload_handler env req_user req_file
  | PostSimplifyJargons h text =>
      req_user <- authMiddleware env h ;; simplify_jargons env text
  | GetHealth => health env
  end.

Definition serve (env : Env) (req : Request) (w : World) : Outcome :=
  run (route env req) w.

(** The authorization header of a request to a protected route. *)
Definition protected (req : Request) : option (option string) :=
  match req with
  | GetProfile h | GetDocuments h | GetDocument h _
  | PostUpload h _ | PostSimplifyJargons h _ => Some h
  | PostSignup _ _ _ _ | PostLogin _ _ | GetHealth => None
  end.

End Handlers.

(** ** A reference implementation of the token and hash interface

    A stand-in with the contract of [CryptoLaws], used to run the handlers
    on concrete requests: a token spells the user id and the expiry time in
    unary, [i]^id [.] [x]^exp. *)
Module Reference.

Fixpoint replicate_char (n : nat) (c : ascii) : string :=
  match n with
  | O => EmptyString
  | S n' => String c (replicate_char n' c)
  end.

(** The number of leading [c] of [s], and what follows them. *)
Fixpoint count_prefix (c : ascii) (s : string) : nat * string :=
  match s with
  | String a s' =>
      if Ascii.eqb a c
      then let r := count_prefix c s' in (S (fst r), snd r)
      else (O, s)
  | EmptyString => (O, EmptyString)
  end.

Definition sign (id : ObjectId) (secret : string) (expiresIn iat : N) : string :=
  replicate_char id "i" +:+ String "." (replicate_char (N.to_nat (iat + expiresIn)) "x").

Definition verify (token secret : string) (t : N) : option ObjectId :=
  let r := count_prefix "i" token in
  match snd r with
  | String "."%char rest =>
      let r' := count_prefix "x" rest in
      match snd r' with
      | EmptyString => if (t <? N.of_nat (fst r'))%N then Some (fst r) else None
      | _ => None
      end
  | _ => None
  end.

#[export] Instance crypto : Crypto :=
  {| bcrypt_hash := fun pw rounds salt => salt +:+ String "$" pw;
     bcrypt_compare := fun pw hashed =>
       match split "$" hashed with
       | [_; p] => String.eqb p pw
       | _ => false
       end;
     jwt_sign := sign;
     jwt_verify := verify |}.

End Reference.

(** The answer of the classification service in the upload scenario of
    the specification. *)
Definition nda_response : Api.ClassifyData :=
  {| Api.success := true;
     Api.classification := Some "NDA";
     Api.confidence := Some (92 # 100)%Q;
     Api.key_terms := Some ["confidential"];
     Api.summary := None;
     Api.important_dates := None;
     Api.parties_involved := None;
     Api.jargon_analysis :=
       Some {| Api.jargons_found :=
                 Some [("indemnify",
                        {| Api.meaning := Some "compensate for harm";
                           Api.occurrences := Some 2%Q;
                           Api.original_term := None |})];
               Api.simplified_text := None;
               Api.total_jargons := None;
               Api.jargon_summary := None;
               Api.complexity_analysis := None |} |}.

(** ** Observations on outcomes and traces *)

(** The statuses written to the store for document [i], oldest first. *)
Definition persisted (i : ObjectId) (tr : list Event) : list Status :=
  omap (fun ev =>
          match ev with
          | DocumentPersisted j st => if Nat.eqb j i then Some st else None
          | _ => None
          end) tr.

(** The stored copy of document [i]. *)
Definition stored (i : ObjectId) (w : World) : option Document :=
  List.find (fun d => Nat.eqb (_id d) i) (documents w).

Definition json (c : nat) (b : Body) : option Response :=
  Some {| statusCode := c; body := b |}.

(** * Properties *)

(** ** Splitting the authorization header *)

Lemma split_no_sep (c : ascii) (s : string) :
  contains c s = false -> split c s = [s].
Proof.
  induction s as [|a s IH]; simpl; intros H; [reflexivity|].
  destruct (Ascii.eqb a c); simpl in H; [discriminate|].
  now rewrite (IH H).
Qed.

Lemma split_app (c : ascii) (s t : string) :
  contains c s = false -> split c (s +:+ String c t) = s :: split c t.
Proof.
  induction s as [|a s IH]; simpl; intros H.
  - now rewrite Ascii.eqb_refl.
  - destruct (Ascii.eqb a c); simpl in H; [discriminate|].
    now rewrite (IH H).
Qed.

Lemma split_cons (c : ascii) (s : string) :
  exists w ws, split c s = w :: ws.
Proof.
  induction s as [|a s [w [ws IH]]]; simpl; [by eexists _, _|].
  destruct (Ascii.eqb a c); [by eexists _, _|].
  rewrite IH. by eexists _, _.
Qed.

Example split_bearer :
  split " " "Bearer abc.def" = ["Bearer"; "abc.def"].
Proof. reflexivity. Qed.

Example split_two_spaces :
  split " " "Bearer  abc" = ["Bearer"; ""; "abc"].
Proof. reflexivity. Qed.

Example split_empty : split " " "" = [""].
Proof. reflexivity. Qed.

(** ** The jargon mapping *)

Lemma convert_jargons_fold_absent (found : list (string * Api.JargonInfo))
    (m : gmap string JargonInfo) (term : string) :
  ~ In term (map fst found) ->
  foldl (fun m e => <[fst e := convert_jargon (fst e) (snd e)]> m) m found !! term
    = m !! term.
Proof.
  revert m. induction found as [|[k info] found IH]; simpl; intros m Hn;
    [reflexivity|].
  rewrite IH by tauto. apply lookup_insert_ne. tauto.
Qed.

Lemma convert_jargons_fold_present (found : list (string * Api.JargonInfo))
    (m : gmap string JargonInfo) (term : string) (info : Api.JargonInfo) :
  List.NoDup (map fst found) -> In (term, info) found ->
  foldl (fun m e => <[fst e := convert_jargon (fst e) (snd e)]> m) m found !! term
    = Some (convert_jargon term info).
Proof.
  revert m. induction found as [|[k i] found IH]; simpl; intros m Hnd Hin;
    [contradiction|].
  inversion Hnd as [|? ? Hk Hnd']; subst.
  destruct Hin as [Heq|Hin].
  - inversion Heq; subst.
    rewrite convert_jargons_fold_absent by exact Hk.
    apply lookup_insert_eq.
  - now apply IH.
Qed.

(** ** Stepping through a handler *)

Lemma in_upload (p : string) (U : gset string) :
  bool_decide (p ∈ {[p]} ∪ U) = true.
Proof.
  apply bool_decide_eq_true_2, elem_of_union_l. now apply elem_of_singleton.
Qed.

Lemma not_in_unlinked (p : string) (U : gset string) :
  p ∉ ({[p]} ∪ U) ∖ {[p]}.
Proof.
  intros H. apply elem_of_difference in H as [_ H].
  apply H. now apply elem_of_singleton.
Qed.

Lemma find_upsert (i : ObjectId) (d : Document) (ds : list Document) :
  _id d = i ->
  List.find (fun x => Nat.eqb (_id x) i) (upsert d ds) = Some d.
Proof.
  intros <-. induction ds as [|x ds IH]; simpl.
  - now rewrite Nat.eqb_refl.
  - destruct (Nat.eqb (_id x) (_id d)) eqn:E; simpl.
    + now rewrite Nat.eqb_refl.
    + now rewrite E.
Qed.

Lemma persisted_snoc (i : ObjectId) (tr : list Event) (ev : Event) :
  persisted i (tr ++ [ev])%list =
    (persisted i tr ++
       match ev with
       | DocumentPersisted j st => if Nat.eqb j i then [st] else []
       | _ => []
       end)%list.
Proof.
  unfold persisted. rewrite omap_app. f_equal.
  destruct ev; simpl; try reflexivity.
  now destruct (Nat.eqb i0 i).
Qed.

(** Unfold the monad and the primitives, then reduce the record
    projections that meet a constructor. *)
Ltac js_eval :=
  cbv beta iota zeta delta
    [upload_handler upload_single fileFilter try_catch bind ret throw return_
     get_world put_world log respond external tempDocument_save post_classify
     unlinkSync existsSync new_Document get_tempDocument set_tempDocument
     default_error_handler with_users with_documents with_uploads
     with_next_oid initial run json stored];
  cbn [world sent tempDocument users documents uploads next_oid trace
       originalname mimetype size path out_response out_unhandled out_world].

(** Branch on the next external call that may fail. *)
Ltac js_case :=
  match goal with
  | H : throws ?e ?s = _ |- context [throws ?e ?s] => rewrite H
  | H : Api.success ?d = _ |- context [Api.success ?d] => rewrite H
  | |- context [bool_decide (?p ∈ {[?p]} ∪ ?U)] => rewrite (in_upload p U)
  | |- context [throws ?e ?s] => destruct (throws e s) eqn:?
  | |- context [Api.success ?d] => destruct (Api.success d) eqn:?
  end.

Ltac js_run := repeat (js_eval; js_case); js_eval.

Section Properties.

Context {C : Crypto}.

Lemma header_token_scheme (scheme token : string) :
  contains " " scheme = false -> contains " " token = false ->
  header_token (Some (scheme +:+ String " " token)) = Some token.
Proof.
  intros Hs Ht. unfold header_token.
  rewrite (split_app _ _ _ Hs), (split_no_sep _ _ Ht). reflexivity.
Qed.

Lemma header_token_single (word : string) :
  contains " " word = false -> header_token (Some word) = None.
Proof.
  intros H. unfold header_token. now rewrite (split_no_sep _ _ H).
Qed.

(** The gate lets a request through exactly with the id its token
    verifies to. *)
Lemma authMiddleware_accepts (env : Env) (h : option string)
    (a : ascii) (t : string) (id : ObjectId) (s : HState) :
  header_token h = Some (String a t) ->
  jwt_verify (String a t) (JWT_SECRET env) (now env) = Some id ->
  authMiddleware env h s = (Normal id, s).
Proof.
  intros Ht Hv. unfold authMiddleware, try_catch, verify.
  rewrite Ht, Hv. reflexivity.
Qed.

Definition denied (msg : string) (s : HState) : HState :=
  {| world := world s;
     sent := json 401 (Message msg);
     tempDocument := tempDocument s |}.

Lemma authMiddleware_no_token (env : Env) (h : option string) (s : HState) :
  truthy (header_token h) = false ->
  authMiddleware env h s =
    (Return, denied "No token provided, authorization denied" s).
Proof.
  intros Ht. unfold authMiddleware, try_catch.
  destruct (header_token h) as [[|a t]|]; try discriminate; reflexivity.
Qed.

Lemma authMiddleware_invalid (env : Env) (h : option string) (tok : string)
    (s : HState) :
  header_token h = Some tok -> truthy (Some tok) = true ->
  jwt_verify tok (JWT_SECRET env) (now env) = None ->
  authMiddleware env h s = (Return, denied "Token is not valid" s).
Proof.
  intros Ht Hn Hv. unfold authMiddleware, try_catch, verify.
  rewrite Ht. destruct tok as [|a t]; [discriminate|].
  rewrite Hv. reflexivity.
Qed.

(** C10: the gate never looks at the scheme. Whatever the first word of
    the header is, a header whose second word (the second piece of
    [split(" ")]) verifies lets the request through as the token's user,
    with or without further words behind it; a header that is one word
    without a space, even a token that would verify, is answered with the
    no-token 401 and not with the invalid-token 401. *)
Theorem authMiddleware_ignores_scheme (env : Env) (scheme token : string)
    (id : ObjectId) (s : HState) :
  contains " " scheme = false ->
  contains " " token = false ->
  token <> "" ->
  jwt_verify token (JWT_SECRET env) (now env) = Some id ->
  authMiddleware env (Some (scheme +:+ String " " token)) s = (Normal id, s)
  /\ (forall rest,
        authMiddleware env
          (Some (scheme +:+ String " " (token +:+ String " " rest))) s =
          (Normal id, s))
  /\ authMiddleware env (Some token) s =
       (Return, denied "No token provided, authorization denied" s)
  /\ forall word, contains " " word = false ->
       authMiddleware env (Some word) s =
         (Return, denied "No token provided, authorization denied" s).
Proof.
  intros Hs Ht Hne Hv.
  assert (Hsingle : forall word, contains " " word = false ->
            authMiddleware env (Some word) s =
              (Return, denied "No token provided, authorization denied" s)).
  { intros word Hw. apply authMiddleware_no_token.
    now rewrite (header_token_single _ Hw). }
  destruct token as [|a t]; [congruence|].
  split; [|split; [|split; [now apply Hsingle | exact Hsingle]]].
  - eapply authMiddleware_accepts; [|exact Hv].
    now apply header_token_scheme.
  - intros rest. eapply authMiddleware_accepts; [|exact Hv].
    unfold header_token.
    now rewrite (split_app _ _ _ Hs), (split_app _ _ _ Ht).
Qed.

(** The words are the pieces between single spaces: after two spaces the
    second piece is empty, and the gate sees no token. *)
Lemma authMiddleware_two_spaces (env : Env) (scheme token : string) (s : HState) :
  contains " " scheme = false ->
  authMiddleware env (Some (scheme +:+ String " " (String " " token))) s =
    (Return, denied "No token provided, authorization denied" s).
Proof.
  intros Hs. apply authMiddleware_no_token. unfold header_token.
  rewrite (split_app _ _ _ Hs). reflexivity.
Qed.

Lemma run_denied (env : Env) (h : option string) (k : ObjectId -> M unit)
    (msg : string) (w : World) :
  authMiddleware env h (initial w) = (Return, denied msg (initial w)) ->
  run (req_user <- authMiddleware env h ;; k req_user) w =
    {| out_response := json 401 (Message msg); out_unhandled := None;
       out_world := w |}.
Proof. intros H. unfold run, bind. rewrite H. reflexivity. Qed.

Lemma run_accepted (env : Env) (h : option string) (k : ObjectId -> M unit)
    (a : ObjectId) (w : World) :
  authMiddleware env h (initial w) = (Normal a, initial w) ->
  run (req_user <- authMiddleware env h ;; k req_user) w = run (k a) w.
Proof. intros H. unfold run, bind. rewrite H. reflexivity. Qed.

(** C9: a request to a protected route (profile, list documents, get
    document, upload, simplify-jargons) whose token is absent or does not
    verify is answered 401, and the world is left exactly as it was: no
    user or document is read or written (the trace of store accesses has
    not grown), and no file is stored. *)
Theorem protected_route_rejects_before_store (env : Env) (req : Request)
    (h : option string) (w : World) :
  protected req = Some h ->
  truthy (header_token h) = false
  \/ (exists tok, header_token h = Some tok
                  /\ jwt_verify tok (JWT_SECRET env) (now env) = None) ->
  exists msg,
    serve env req w =
      {| out_response := json 401 (Message msg); out_unhandled := None;
         out_world := w |}.
Proof.
  intros Hp Hbad.
  assert (Hd : exists msg,
             authMiddleware env h (initial w) = (Return, denied msg (initial w))).
  { destruct Hbad as [Hno | [tok [Ht Hv]]].
    - eexists. now apply authMiddleware_no_token.
    - destruct (truthy (Some tok)) eqn:Hn.
      + eexists. eapply authMiddleware_invalid; eassumption.
      + eexists. apply authMiddleware_no_token. now rewrite Ht. }
  destruct Hd as [msg Hd]. exists msg.
  destruct req; simpl in Hp; inversion Hp; subst;
    unfold serve, route; now apply run_denied.
Qed.

(** ** Signup and login *)

Lemma find_user_by_email_some (e : string) (us : list User) :
  (exists u, In u us /\ email u = e) ->
  exists u', find_user_by_email e us = Some u' /\ email u' = e.
Proof.
  intros [u [Hin He]]. unfold find_user_by_email.
  destruct (List.find _ us) as [u'|] eqn:Hf.
  - exists u'. split; [reflexivity|].
    apply List.find_some in Hf. now apply String.eqb_eq.
  - apply (List.find_none _ _ Hf) in Hin.
    rewrite He, String.eqb_refl in Hin. discriminate.
Qed.

(** C7: signing up with an email that is already in the user store never
    creates a user: the set of users is unchanged, whatever the store
    answers; and when the store answers the lookup, the response is the
    400 [User already exists]. *)
Theorem signup_existing_email (env : Env) (fn ln e pw : string) (w : World) :
  (exists u, In u (users w) /\ email u = e) ->
  let o := serve env (PostSignup fn ln e pw) w in
  users (out_world o) = users w
  /\ documents (out_world o) = documents w
  /\ (throws env SignupFindOne = None ->
      out_response o = json 400 (Message "User already exists")).
Proof.
  intros Hex. apply find_user_by_email_some in Hex as [u' [Hf _]].
  unfold serve, run, route, signup, try_catch, bind, User_findOne, log,
    external, get_world, ret, throw, respond, return_, initial.
  destruct (throws env SignupFindOne) as [err|]; simpl.
  - repeat split. discriminate.
  - rewrite Hf. simpl. repeat split.
Qed.

(** A token of the library, sent as [Bearer token], passes the gate until
    it expires and is refused as invalid from then on. *)
Lemma authMiddleware_signed (L : CryptoLaws C) (env : Env) (id : ObjectId)
    (ttl iat : N) (s : HState) :
  authMiddleware env
      (Some ("Bearer " +:+ jwt_sign id (JWT_SECRET env) ttl iat)) s =
    if (now env <? iat + ttl)%N then (Normal id, s)
    else (Return, denied "Token is not valid" s).
Proof.
  pose proof (jwt_sign_nonempty id (JWT_SECRET env) ttl iat) as Hne.
  pose proof (jwt_sign_no_space id (JWT_SECRET env) ttl iat) as Hsp.
  pose proof (jwt_verify_sign id (JWT_SECRET env) ttl iat (now env)) as Hv.
  assert (Ht : header_token
                 (Some ("Bearer " +:+ jwt_sign id (JWT_SECRET env) ttl iat)) =
               Some (jwt_sign id (JWT_SECRET env) ttl iat)).
  { now apply (header_token_scheme "Bearer"). }
  destruct (jwt_sign id (JWT_SECRET env) ttl iat) as [|a t] eqn:Htok;
    [congruence|].
  destruct (now env <? iat + ttl)%N.
  - now apply (authMiddleware_accepts env _ a t).
  - now apply (authMiddleware_invalid env _ (String a t)).
Qed.


(** ** Reading a document *)

Lemma find_document_none (i a : ObjectId) (ds : list Document) :
  (forall x, In x ds -> _id x = i -> userId x <> a) ->
  find_document i a ds = None.
Proof.
  intros H. unfold find_document.
  destruct (List.find _ ds) as [x|] eqn:Hf; [|reflexivity].
  apply List.find_some in Hf as [Hin Hb].
  apply andb_prop in Hb as [Hi Hu].
  apply Nat.eqb_eq in Hi, Hu. now destruct (H x Hin Hi).
Qed.

Lemma unique_id (ds : list Document) (x y : Document) :
  List.NoDup (map _id ds) -> In x ds -> In y ds -> _id x = _id y -> x = y.
Proof.
  induction ds as [|d ds IH]; simpl; intros Hnd Hx Hy Heq; [contradiction|].
  inversion Hnd as [|? ? Hnotin Hnd']; subst.
  destruct Hx as [->|Hx], Hy as [->|Hy]; auto.
  - destruct Hnotin. rewrite Heq. now apply List.in_map.
  - destruct Hnotin. rewrite <- Heq. now apply List.in_map.
Qed.

(** C4: a user who passed the gate and asks for a document that belongs
    to somebody else is never sent a document; the response is the same
    as for an id that no document has, and when the store answers it is
    the 404 [Document not found]. *)
Theorem get_document_of_other_user (env : Env) (h : option string)
    (a : ObjectId) (d : Document) (j : ObjectId) (w : World) :
  authMiddleware env h (initial w) = (Normal a, initial w) ->
  List.NoDup (map _id (documents w)) ->
  In d (documents w) ->
  userId d <> a ->
  ~ In j (map _id (documents w)) ->
  let o := serve env (GetDocument h (_id d)) w in
  out_response o = out_response (serve env (GetDocument h j) w)
  /\ (forall c m d', out_response o <> json c (DocumentJson d')
                    /\ out_response o <> json c (MessageDocument m d'))
  /\ (throws env DocumentFindOne = None ->
      out_response o = json 404 (Message "Document not found")).
Proof.
  intros Ha Hnd Hin Hne Hj o. subst o.
  assert (Hd : find_document (_id d) a (documents w) = None).
  { apply find_document_none. intros x Hx Hi.
    now rewrite (unique_id _ x d Hnd Hx Hin Hi). }
  assert (Hn : find_document j a (documents w) = None).
  { apply find_document_none. intros x Hx Hi.
    destruct Hj. rewrite <- Hi. now apply List.in_map. }
  unfold serve, route. rewrite !(run_accepted _ _ _ a) by exact Ha.
  unfold run, get_document, try_catch, bind, Document_findOne, log,
    external, get_world, ret, throw, respond, return_, initial, json.
  destruct (throws env DocumentFindOne) as [err|]; simpl.
  - repeat split; discriminate.
  - rewrite Hd, Hn. simpl. repeat split; discriminate.
Qed.

(** ** Upload *)

(** A request that passed the gate with a PDF of at most 10MB reaches the
    handler with the file stored under [upload_path]. *)
Lemma upload_accepted (env : Env) (h : option string) (a : ObjectId)
    (p : FilePart) (w : World) :
  authMiddleware env h (initial w) = (Normal a, initial w) ->
  part_mimetype p = "application/pdf" ->
  (part_size p <= fileSize)%N ->
  serve env (PostUpload h (Some p)) w =
    run (upload_handler env a
           (Some {| originalname := part_originalname p;
                    mimetype := part_mimetype p;
                    size := part_size p;
                    path := upload_path env |}))
        (with_uploads ({[upload_path env]} ∪ uploads w)
           {| users := users w; documents := documents w;
              uploads := uploads w; next_oid := next_oid w;
              trace := trace w ++ [FileWrite (upload_path env)] |}).
Proof.
  intros Ha Hm Hs. unfold serve, route.
  rewrite (run_accepted _ _ _ a) by exact Ha.
  unfold run, upload_single, fileFilter. rewrite Hm.
  replace (fileSize <? part_size p)%N with false
    by (symmetry; now apply N.ltb_ge).
  reflexivity.
Qed.

(** C1, as the code has it: once the document has been saved with status
    [processing], a failure of any later step of the try block (the
    classification call, an unsuccessful answer, the save of the analysis
    or the deletion of the temporary file) leaves the stored document
    with status [error], provided the save of the catch block (line 270)
    does not throw itself. *)
Theorem upload_failure_persists_error (env : Env) (h : option string)
    (a : ObjectId) (p : FilePart) (w : World) :
  authMiddleware env h (initial w) = (Normal a, initial w) ->
  part_mimetype p = "application/pdf" ->
  (part_size p <= fileSize)%N ->
  throws env UploadSaveCreated = None ->
  throws env UploadClassify <> None
  \/ Api.success (classify_data env) = false
  \/ throws env UploadSaveAnalyzed <> None
  \/ throws env UploadUnlink <> None ->
  throws env UploadSaveError = None ->
  let o := serve env (PostUpload h (Some p)) w in
  exists d,
    stored (next_oid w) (out_world o) = Some d
    /\ status d = error
    /\ last (persisted (next_oid w) (trace (out_world o))) = Some error.
Proof.
  intros Ha Hm Hs Hc Hfail He o. subst o.
  rewrite (upload_accepted env h a p w Ha Hm Hs).
  js_run;
    try (exfalso; destruct Hfail as [Hf|[Hf|[Hf|Hf]]]; congruence);
    (eexists; split; [apply find_upsert; reflexivity|]; split; [reflexivity|]);
    rewrite !persisted_snoc;
    cbn [_id status set_status apply_classification];
    rewrite ?Nat.eqb_refl, ?app_nil_r; apply last_snoc.
Qed.

(** C3, as the code has it: for a document that the handler created (the
    save of line 195 went through), the statuses written to the store
    during the request are, in order, one of: processing; processing,
    analyzed; processing, error; processing, analyzed, error. So the first
    status is [processing], [processing] is never written after another
    status, nothing is written after [error], and [analyzed] is written
    only for a successful answer of the classification service; but
    [analyzed] is followed by [error] when the deletion of the temporary
    file (line 254) throws after the analyzed save. *)
Theorem upload_status_history (env : Env) (h : option string)
    (a : ObjectId) (p : FilePart) (w : World) :
  authMiddleware env h (initial w) = (Normal a, initial w) ->
  part_mimetype p = "application/pdf" ->
  (part_size p <= fileSize)%N ->
  throws env UploadSaveCreated = None ->
  let o := serve env (PostUpload h (Some p)) w in
  exists hist,
    persisted (next_oid w) (trace (out_world o)) =
      (persisted (next_oid w) (trace w) ++ hist)%list
    /\ (hist = [processing] \/ hist = [processing; analyzed]
        \/ hist = [processing; error]
        \/ hist = [processing; analyzed; error])
    /\ (In analyzed hist ->
          Api.success (classify_data env) = true
          /\ throws env UploadClassify = None
          /\ throws env UploadSaveAnalyzed = None)
    /\ (hist = [processing; analyzed; error] <->
          Api.success (classify_data env) = true
          /\ throws env UploadClassify = None
          /\ throws env UploadSaveAnalyzed = None
          /\ throws env UploadUnlink <> None
          /\ throws env UploadSaveError = None).
Proof.
  intros Ha Hm Hs Hc o. subst o.
  rewrite (upload_accepted env h a p w Ha Hm Hs).
  js_run;
    rewrite !persisted_snoc;
    cbn [_id status set_status apply_classification];
    rewrite ?Nat.eqb_refl, <- ?app_assoc, ?app_nil_r; cbn [app];
    (eexists; split; [reflexivity|]);
    cbn [In]; intuition (try discriminate; try congruence).
Qed.

(** C5, as the code has it: an upload without a file is answered 400 by
    the handler; a file that is not a PDF or is larger than 10MB is
    refused by multer, whose error goes to Express's default error handler
    and is answered 500, not 400. In all three cases the world is left as
    it was: no document is created or saved and no file is stored. *)
Theorem upload_rejected_before_document (env : Env) (h : option string)
    (a : ObjectId) (part : option FilePart) (w : World) :
  authMiddleware env h (initial w) = (Normal a, initial w) ->
  part = None
  \/ (exists p, part = Some p /\ part_mimetype p <> "application/pdf")
  \/ (exists p, part = Some p /\ (fileSize < part_size p)%N) ->
  let o := serve env (PostUpload h part) w in
  out_world o = w
  /\ out_unhandled o = None
  /\ out_response o =
       match part with
       | None => json 400 (Message "No document file uploaded")
       | Some p =>
           json 500
             (ErrorPage
                (if String.eqb (part_mimetype p) "application/pdf"
                 then MulterError "File too large" "LIMIT_FILE_SIZE"
                 else new_Error "Only PDF files are allowed"))
       end.
Proof.
  intros Ha Hbad o. subst o. unfold serve, route.
  rewrite (run_accepted _ _ _ a) by exact Ha.
  destruct Hbad as [-> | [(p & -> & Hm) | (p & -> & Hs)]].
  - js_run. now destruct w.
  - apply String.eqb_neq in Hm. js_eval. rewrite Hm. js_eval.
    now destruct w.
  - apply N.ltb_lt in Hs. js_eval. rewrite Hs.
    destruct (String.eqb (part_mimetype p) "application/pdf");
      js_eval; now destruct w.
Qed.

(** C6: when the gate and multer let the upload through and the service
    answers with [success], the handler sets the status to [analyzed] and
    saves the document (whatever happens afterwards); when this save and
    the deletion of the temporary file do not throw, the response is 200
    with the document, which is also the stored copy; its status is
    [analyzed], its analysis fields are the snake_case fields of the
    answer, and every entry [term: info] of [jargons_found] is stored under
    [term] with the same meaning and occurrences and with [originalTerm]
    equal to [original_term], or to [term] when [original_term] is absent.
    For the answer of the specification's scenario this gives status
    [analyzed], classification [NDA] and [indemnify] as the [originalTerm]
    of [indemnify]. *)
Theorem upload_success_maps_response (env : Env) (h : option string)
    (a : ObjectId) (p : FilePart) (w : World) :
  authMiddleware env h (initial w) = (Normal a, initial w) ->
  part_mimetype p = "application/pdf" ->
  (part_size p <= fileSize)%N ->
  throws env UploadSaveCreated = None ->
  throws env UploadClassify = None ->
  Api.success (classify_data env) = true ->
  let data := classify_data env in
  let o := serve env (PostUpload h (Some p)) w in
  In (DocumentSave (next_oid w) analyzed) (trace (out_world o))
  /\ (throws env UploadSaveAnalyzed = None ->
      throws env UploadUnlink = None ->
      exists d,
        out_response o =
          json 200
            (MessageDocument "Document uploaded and analyzed successfully" d)
        /\ stored (next_oid w) (out_world o) = Some d
        /\ status d = analyzed
        /\ userId d = a /\ fileName d = part_originalname p
        /\ classification d = Api.classification data
        /\ confidence d = Api.confidence data
        /\ keyTerms d = Api.key_terms data
        /\ summary d = Api.summary data
        /\ importantDates d = Api.important_dates data
        /\ partiesInvolved d = Api.parties_involved data
        /\ (forall ja found, Api.jargon_analysis data = Some ja ->
              Api.jargons_found ja = Some found ->
              List.NoDup (map fst found) ->
              (forall term info, In (term, info) found ->
                 jargonsFound (jargonAnalysis d) !! term =
                   Some {| meaning := Api.meaning info;
                           occurrences := Api.occurrences info;
                           originalTerm :=
                             match Api.original_term info with
                             | Some (String c t) => String c t
                             | _ => term
                             end |})
              /\ (forall term, ~ In term (map fst found) ->
                    jargonsFound (jargonAnalysis d) !! term = None))
        /\ (data = nda_response ->
              status d = analyzed
              /\ classification d = Some "NDA"
              /\ originalTerm <$> (jargonsFound (jargonAnalysis d) !! "indemnify")
                   = Some "indemnify")).
Proof.
  intros Ha Hm Hs H1 H2 Hok data o. subst data o.
  rewrite (upload_accepted env h a p w Ha Hm Hs).
  split.
  - js_run; rewrite ?in_app_iff; cbn [In _id status apply_classification];
      tauto.
  - intros H3 H4. js_run. eexists. split; [reflexivity|].
    split; [apply find_upsert; reflexivity|].
    cbn [apply_classification _id userId fileName status classification
         confidence keyTerms summary importantDates partiesInvolved
         jargonAnalysis].
    repeat (split; [reflexivity|]). split.
    + intros ja found Hja Hfound Hnd. rewrite Hja.
      unfold jargonAnalysisData. cbn [jargonsFound]. rewrite Hfound.
      split.
      * intros term info Hin. unfold convert_jargons.
        now rewrite (convert_jargons_fold_present found ∅ term info Hnd Hin).
      * intros term Hn. unfold convert_jargons.
        now rewrite (convert_jargons_fold_absent found ∅ term Hn).
    + intros ->. repeat split.
Qed.

End Properties.

(** ** The reference implementation meets the token contract *)

Module ReferenceLaws.
Import Reference.

Lemma count_prefix_stop (c b : ascii) (n : nat) (r : string) :
  Ascii.eqb b c = false ->
  count_prefix c (replicate_char n c +:+ String b r) = (n, String b r).
Proof.
  intros Hb. induction n as [|n IH]; simpl.
  - now rewrite Hb.
  - now rewrite Ascii.eqb_refl, IH.
Qed.

Lemma count_prefix_all (c : ascii) (n : nat) :
  count_prefix c (replicate_char n c) = (n, EmptyString).
Proof.
  induction n as [|n IH]; simpl; [reflexivity|].
  now rewrite Ascii.eqb_refl, IH.
Qed.

Lemma contains_app (c : ascii) (s t : string) :
  contains c (s +:+ t) = contains c s || contains c t.
Proof.
  induction s as [|a s IH]; simpl; [reflexivity|].
  now rewrite IH, orb_assoc.
Qed.

Lemma contains_replicate (c b : ascii) (n : nat) :
  Ascii.eqb b c = false -> contains c (replicate_char n b) = false.
Proof.
  intros Hb. induction n as [|n IH]; simpl; [reflexivity|].
  now rewrite Hb, IH.
Qed.

Lemma verify_sign (id : ObjectId) (secret : string) (ttl iat t : N) :
  verify (sign id secret ttl iat) secret t =
    if (t <? iat + ttl)%N then Some id else None.
Proof.
  unfold verify, sign.
  rewrite count_prefix_stop by reflexivity. cbn [fst snd].
  rewrite count_prefix_all. cbn [fst snd].
  now rewrite N2Nat.id.
Qed.

#[export] Instance laws : CryptoLaws crypto.
Proof.
  split.
  - exact verify_sign.
  - intros id secret ttl iat. simpl. unfold sign.
    destruct id; discriminate.
  - intros id secret ttl iat. simpl. unfold sign.
    rewrite contains_app. simpl.
    now rewrite !contains_replicate by reflexivity.
Qed.

End ReferenceLaws.

(** ** Concrete requests *)

Module Scenario.
Import Reference ReferenceLaws.

Definition alice : User :=
  {| user_id := 1; firstName := "Alice"; lastName := "Adams";
     email := "alice@example.com"; password := "salt$wonderland" |}.

Definition bob : User :=
  {| user_id := 2; firstName := "Bob"; lastName := "Brown";
     email := "bob@example.com"; password := "salt$builder" |}.

(** A lease that Bob uploaded earlier. *)
Definition lease : Document :=
  {| _id := 10; userId := 2; fileName := "lease.pdf"; uploadDate := 40;
     status := analyzed; classification := Some "Lease";
     confidence := Some (8 # 10)%Q; keyTerms := Some ["rent"];
     summary := None; importantDates := Some []; partiesInvolved := Some [];
     jargonAnalysis :=
       {| jargonsFound := ∅; simplifiedText := None; totalJargons := 0%Q;
          jargonSummary := None; complexityAnalysis := None |} |}.

Definition w0 : World :=
  {| users := [alice; bob]; documents := [lease]; uploads := ∅;
     next_oid := 11; trace := [] |}.

Definition no_simplification : Api.SimplifyData :=
  {| Api.s_success := false; Api.s_original_text := None;
     Api.s_simplified_text := None; Api.s_jargons_found := None;
     Api.s_total_jargons := None; Api.s_complexity_analysis := None;
     Api.s_jargon_summary := None |}.

(** The environment in which the external calls listed in [failing] throw. *)
Definition env_with (failing : Site -> option Error) : Env :=
  {| now := 100; JWT_SECRET := "secret"; throws := failing;
     classify_data := nda_response; simplify_data := no_simplification;
     salt := "salt"; upload_path := "uploads/3f9a" |}.

Definition quiet : Env := env_with (fun _ => None).

Definition store_down : Error :=
  {| message := "connection to the database lost"; code := None;
     response := None |}.

Definition ECONNREFUSED : Error :=
  {| message := "connect ECONNREFUSED 127.0.0.1:5001";
     code := Some "ECONNREFUSED"; response := None |}.

Definition EPERM : Error :=
  {| message := "EPERM: operation not permitted, unlink";
     code := Some "EPERM"; response := None |}.

(** Alice's token, issued at time 90 for 3600 seconds. *)
Definition alice_token : string := jwt_sign 1 "secret" 3600 90.

Definition bearer : option string := Some ("Bearer " +:+ alice_token).

Definition contract : FilePart :=
  {| part_originalname := "contract.pdf"; part_mimetype := "application/pdf";
     part_size := 2048 |}.

Definition notes : FilePart :=
  {| part_originalname := "notes.txt"; part_mimetype := "text/plain";
     part_size := 2048 |}.

Lemma alice_passes (failing : Site -> option Error) (w : World) :
  authMiddleware (env_with failing) bearer (initial w) = (Normal 1, initial w).
Proof. vm_compute. reflexivity. Defined.

Example profile_of_alice :
  out_response (serve quiet (GetProfile bearer) w0) =
    json 200 (UserJson {| pu_id := 1; pu_firstName := "Alice";
                          pu_lastName := "Adams";
                          pu_email := "alice@example.com" |}).
Proof. vm_compute. reflexivity. Qed.

Example documents_of_alice :
  out_response (serve quiet (GetDocuments bearer) w0) = json 200 (DocumentsJson []).
Proof. vm_compute. reflexivity. Qed.

Example expired_token_is_refused :
  out_response
    (serve quiet (GetProfile (Some ("Bearer " +:+ jwt_sign 1 "secret" 10 90))) w0) =
    json 401 (Message "Token is not valid").
Proof. vm_compute. reflexivity. Qed.

Example signup_then_login :
  let o := serve quiet (PostSignup "Carol" "Clark" "carol@example.com" "pw") w0 in
  out_response o = json 201 (Message "User registered successfully")
  /\ out_response (serve quiet (PostLogin "carol@example.com" "pw") (out_world o)) =
       json 200 (MessageToken "Login successful" (jwt_sign 11 "secret" 3600 100)).
Proof. vm_compute. split; reflexivity. Qed.

Example upload_without_file :
  out_response (serve quiet (PostUpload bearer None) w0) =
    json 400 (Message "No document file uploaded").
Proof. vm_compute. reflexivity. Qed.

Example model_service_down :
  out_response
    (serve (env_with (fun s => match s with UploadClassify => Some ECONNREFUSED
                               | _ => None end))
       (PostUpload bearer (Some contract)) w0) =
    json 500 (Message "Model service is not available. Please try again later.").
Proof. vm_compute. reflexivity. Qed.

(** *** C1 *)

(** The model service is not reachable and the save of the catch block
    fails as well: the document stays [processing] and the error of the
    save leaves the handler. *)
Definition classify_and_error_save_fail (s : Site) : option Error :=
  match s with
  | UploadClassify => Some ECONNREFUSED
  | UploadSaveError => Some store_down
  | _ => None
  end.

Lemma upload_left_processing :
  let env := env_with classify_and_error_save_fail in
  let o := serve env (PostUpload bearer (Some contract)) w0 in
  persisted 11 (trace (out_world o)) = [processing]
  /\ throws env UploadClassify <> None
  /\ status <$> stored 11 (out_world o) = Some processing
  /\ status <$> stored 11 (out_world o) <> Some error
  /\ out_unhandled o = Some store_down.
Proof. vm_compute. repeat split; discriminate. Qed.

Definition classify_fails (s : Site) : option Error :=
  match s with
  | UploadClassify => Some ECONNREFUSED
  | _ => None
  end.

Lemma upload_failure_persists_error_witness :
  let o := serve (env_with classify_fails) (PostUpload bearer (Some contract)) w0 in
  exists d,
    stored 11 (out_world o) = Some d
    /\ status d = error
    /\ last (persisted 11 (trace (out_world o))) = Some error.
Proof.
  apply (upload_failure_persists_error (env_with classify_fails) bearer 1
           contract w0).
  - apply alice_passes.
  - reflexivity.
  - vm_compute. discriminate.
  - reflexivity.
  - left. vm_compute. discriminate.
  - reflexivity.
Defined.

(** *** C2 *)

(** The store rejects every save: the first save and the save of the catch
    block both throw. *)
Definition saves_fail (s : Site) : option Error :=
  match s with
  | UploadSaveCreated | UploadSaveAnalyzed | UploadSaveError => Some store_down
  | _ => None
  end.

(** C2: the temporary file must be deleted on every exit path, also when
    the creation of the document fails. The code misses this one: Alice
    uploads [contract.pdf] while the store rejects the saves; the save of
    line 195 throws, the catch block saves again at line 270 before it
    cleans up, that save throws as well, and its error leaves the handler.
    The cleanup of lines 273-276 is never reached ([unlinkSync] is not
    called) and the temporary file is still in the upload directory. *)
Lemma upload_leaves_temporary_file :
  let env := env_with saves_fail in
  let o := serve env (PostUpload bearer (Some contract)) w0 in
  upload_path env ∈ uploads (out_world o)
  /\ trace (out_world o) =
       [FileWrite (upload_path env); DocumentSave 11 processing;
        DocumentSave 11 error]
  /\ out_unhandled o = Some store_down.
Proof.
  cbv zeta. split; [|vm_compute; split; reflexivity].
  apply (bool_decide_unpack _). vm_compute. exact I.
Qed.

(** The sibling paths do clean up: with the same request the file is gone
    when only the model service fails, and when only the first save fails. *)
Definition first_save_fails (s : Site) : option Error :=
  match s with
  | UploadSaveCreated => Some store_down
  | _ => None
  end.

Lemma upload_cleans_up_on_other_failures :
  (upload_path (env_with classify_fails)
     ∉ uploads (out_world (serve (env_with classify_fails)
                             (PostUpload bearer (Some contract)) w0)))
  /\ (upload_path (env_with first_save_fails)
       ∉ uploads (out_world (serve (env_with first_save_fails)
                               (PostUpload bearer (Some contract)) w0))).
Proof.
  split; apply (bool_decide_unpack _); vm_compute; exact I.
Qed.

(** *** C3 *)

(** Everything works until the temporary file is to be deleted: the
    document has been stored as [analyzed], and the catch block stores it
    again as [error]. *)
Definition unlink_fails (s : Site) : option Error :=
  match s with
  | UploadUnlink => Some EPERM
  | _ => None
  end.

Lemma upload_analyzed_becomes_error :
  let env := env_with unlink_fails in
  let o := serve env (PostUpload bearer (Some contract)) w0 in
  persisted 11 (trace (out_world o)) = [processing; analyzed; error]
  /\ status <$> stored 11 (out_world o) = Some error
  /\ out_response o = json 500 (Message "Document processing failed").
Proof. vm_compute. repeat split. Qed.

Lemma upload_status_history_witness :
  let env := env_with unlink_fails in
  let o := serve env (PostUpload bearer (Some contract)) w0 in
  exists hist,
    persisted 11 (trace (out_world o)) = (persisted 11 (trace w0) ++ hist)%list
    /\ (hist = [processing] \/ hist = [processing; analyzed]
        \/ hist = [processing; error]
        \/ hist = [processing; analyzed; error])
    /\ (In analyzed hist ->
          Api.success (classify_data env) = true
          /\ throws env UploadClassify = None
          /\ throws env UploadSaveAnalyzed = None)
    /\ (hist = [processing; analyzed; error] <->
          Api.success (classify_data env) = true
          /\ throws env UploadClassify = None
          /\ throws env UploadSaveAnalyzed = None
          /\ throws env UploadUnlink <> None
          /\ throws env UploadSaveError = None).
Proof.
  apply (upload_status_history (env_with unlink_fails) bearer 1 contract w0).
  - apply alice_passes.
  - reflexivity.
  - vm_compute. discriminate.
  - reflexivity.
Defined.

(** *** C4 *)

Lemma get_document_of_other_user_witness :
  let o := serve quiet (GetDocument bearer 10) w0 in
  out_response o = out_response (serve quiet (GetDocument bearer 99) w0)
  /\ (forall c m d', out_response o <> json c (DocumentJson d')
                    /\ out_response o <> json c (MessageDocument m d'))
  /\ (throws quiet DocumentFindOne = None ->
      out_response o = json 404 (Message "Document not found")).
Proof.
  apply (get_document_of_other_user quiet bearer 1 lease 99 w0).
  - apply alice_passes.
  - apply List.NoDup_cons; [simpl; tauto | apply List.NoDup_nil].
  - left. reflexivity.
  - simpl. discriminate.
  - simpl. intros [H|[]]. discriminate.
Defined.

(** *** C5 *)

(** A text file is refused by multer, and the answer is Express's 500. *)
Lemma upload_of_text_file_is_a_500 :
  let o := serve quiet (PostUpload bearer (Some notes)) w0 in
  out_response o = json 500 (ErrorPage (new_Error "Only PDF files are allowed"))
  /\ (forall b, out_response o <> json 400 b)
  /\ documents (out_world o) = documents w0.
Proof. vm_compute. repeat split. discriminate. Qed.

Lemma upload_rejected_before_document_witness :
  let o := serve quiet (PostUpload bearer (Some notes)) w0 in
  out_world o = w0
  /\ out_unhandled o = None
  /\ out_response o =
       json 500
         (ErrorPage
            (if String.eqb (part_mimetype notes) "application/pdf"
             then MulterError "File too large" "LIMIT_FILE_SIZE"
             else new_Error "Only PDF files are allowed")).
Proof.
  apply (upload_rejected_before_document quiet bearer 1 (Some notes) w0).
  - apply alice_passes.
  - right. left. exists notes. split; [reflexivity|]. simpl. discriminate.
Defined.

(** *** C6 *)

Lemma upload_success_maps_response_witness :
  let o := serve quiet (PostUpload bearer (Some contract)) w0 in
  In (DocumentSave 11 analyzed) (trace (out_world o))
  /\ exists d,
      out_response o =
        json 200 (MessageDocument "Document uploaded and analyzed successfully" d)
      /\ stored 11 (out_world o) = Some d
      /\ status d = analyzed
      /\ classification d = Some "NDA"
      /\ confidence d = Some (92 # 100)%Q
      /\ keyTerms d = Some ["confidential"]
      /\ jargonsFound (jargonAnalysis d) !! "indemnify" =
           Some {| meaning := Some "compensate for harm";
                   occurrences := Some 2%Q;
                   originalTerm := "indemnify" |}.
Proof.
  destruct (upload_success_maps_response quiet bearer 1 contract w0)
    as (Hcall & Hdone).
  - apply alice_passes.
  - reflexivity.
  - vm_compute. discriminate.
  - reflexivity.
  - reflexivity.
  - reflexivity.
  - split; [exact Hcall|].
    destruct (Hdone eq_refl eq_refl)
      as (d & Hr & Hst & Hs & _ & _ & Hc & Hco & Hk & _ & _ & _ & Hj & _).
    exists d. repeat (split; [assumption|]).
    destruct (Hj _ _ eq_refl eq_refl) as [Hin _].
    + apply List.NoDup_cons; [simpl; tauto | apply List.NoDup_nil].
    + apply (Hin "indemnify"
               {| Api.meaning := Some "compensate for harm";
                  Api.occurrences := Some 2%Q;
                  Api.original_term := None |}).
      left. reflexivity.
Defined.

(** *** C7 *)

Lemma signup_existing_email_witness :
  let o := serve quiet (PostSignup "Al" "Adams" "alice@example.com" "rabbit") w0 in
  users (out_world o) = users w0
  /\ documents (out_world o) = documents w0
  /\ (throws quiet SignupFindOne = None ->
      out_response o = json 400 (Message "User already exists")).
Proof.
  apply (signup_existing_email quiet "Al" "Adams" "alice@example.com" "rabbit" w0).
  exists alice. split; [left|]; reflexivity.
Defined.

(** *** C8 *)


(** *** C9 *)

Lemma protected_route_rejects_before_store_witness :
  exists msg,
    serve quiet (GetDocuments (Some "Bearer")) w0 =
      {| out_response := json 401 (Message msg); out_unhandled := None;
         out_world := w0 |}.
Proof.
  apply (protected_route_rejects_before_store quiet
           (GetDocuments (Some "Bearer")) (Some "Bearer") w0).
  - reflexivity.
  - left. reflexivity.
Defined.

(** *** C10 *)

Lemma authMiddleware_ignores_scheme_witness :
  authMiddleware quiet (Some ("Basic" +:+ String " " alice_token)) (initial w0) =
    (Normal 1, initial w0)
  /\ (forall rest,
        authMiddleware quiet
          (Some ("Basic" +:+ String " " (alice_token +:+ String " " rest)))
          (initial w0) = (Normal 1, initial w0))
  /\ authMiddleware quiet (Some alice_token) (initial w0) =
       (Return, denied "No token provided, authorization denied" (initial w0))
  /\ forall word, contains " " word = false ->
       authMiddleware quiet (Some word) (initial w0) =
         (Return, denied "No token provided, authorization denied" (initial w0)).
Proof.
  apply (authMiddleware_ignores_scheme quiet "Basic" alice_token 1 (initial w0)).
  - reflexivity.
  - vm_compute. reflexivity.
  - vm_compute. discriminate.
  - vm_compute. reflexivity.
Defined.

End Scenario.

(** * Further properties of the handlers *)

(** ** What a well-formed store looks like *)

(** Ids are drawn from [next_oid], so every stored id lies below it; emails
    are unique (the unique index of [userSchema]) and so are ids. *)
Definition ids_below (n : ObjectId) (w : World) : Prop :=
  Forall (fun u => user_id u < n) (users w)
  /\ Forall (fun d => _id d < n) (documents w).

Definition well_formed (w : World) : Prop :=
  List.NoDup (map email (users w))
  /\ List.NoDup (map user_id (users w))
  /\ List.NoDup (map _id (documents w))
  /\ ids_below (next_oid w) w.

(** The store before the first request. *)
Definition empty_world : World :=
  {| users := []; documents := []; uploads := ∅; next_oid := 0; trace := [] |}.

(** The routes that write to one of the stores or to the upload directory. *)
Definition writes {C : Crypto} (req : Request) : bool :=
  match req with
  | PostSignup _ _ _ _ | PostUpload _ _ => true
  | _ => false
  end.

(** [.select("-password")] *)
Definition public (u : User) : PublicUser :=
  {| pu_id := user_id u; pu_firstName := firstName u;
     pu_lastName := lastName u; pu_email := email u |}.

(** Newest first, as [.sort({ uploadDate: -1 })] orders two documents. *)
Definition newer_or_same (x y : Document) : Prop :=
  (uploadDate y <= uploadDate x)%N.

(** Unfold the monad, the primitives and all handlers. *)
Ltac js_eval_all :=
  cbv beta iota zeta delta
    [signup login profile list_documents get_document simplify_jargons health
     upload_handler upload_single fileFilter try_catch bind ret throw return_
     get_world put_world log respond external tempDocument_save post_classify
     post_simplify unlinkSync existsSync new_Document get_tempDocument
     set_tempDocument default_error_handler User_findOne User_create
     User_findById Document_find Document_findOne with_users with_documents
     with_uploads with_next_oid initial run json stored option_map];
  cbn [world sent tempDocument users documents uploads next_oid trace
       originalname mimetype size path out_response out_unhandled out_world].

Ltac js_run_all := repeat (js_eval_all; js_case); js_eval_all.

Ltac answered := split; [reflexivity | eexists; reflexivity].

Section More.

Context {C : Crypto}.

(** ** The gate *)

Lemma authMiddleware_cases (env : Env) (h : option string) (s : HState) :
  (exists id, authMiddleware env h s = (Normal id, s))
  \/ (exists msg, authMiddleware env h s = (Return, denied msg s)).
Proof.
  unfold authMiddleware, try_catch, verify.
  destruct (header_token h) as [[|a t]|]; try (right; eexists; reflexivity).
  destruct (jwt_verify _ _ _); [left|right]; eexists; reflexivity.
Qed.

(** The gate lets a request through exactly when the second piece of the
    header is a non-empty token that verifies, and then [req.user] is the
    id the token verifies to; it never changes the state. *)
Theorem authMiddleware_passes_iff (env : Env) (h : option string)
    (id : ObjectId) (s s' : HState) :
  authMiddleware env h s = (Normal id, s') <->
  s' = s
  /\ exists tok, header_token h = Some tok /\ tok <> ""
                 /\ jwt_verify tok (JWT_SECRET env) (now env) = Some id.
Proof.
  unfold authMiddleware, try_catch, verify. split.
  - destruct (header_token h) as [[|a t]|]; try discriminate.
    destruct (jwt_verify _ _ _) as [i|] eqn:Hv; try discriminate.
    intros H. inversion H; subst. split; [reflexivity|].
    exists (String a t). repeat split; [discriminate | exact Hv].
  - intros [-> (tok & -> & Hne & Hv)].
    destruct tok as [|a t]; [congruence|]. now rewrite Hv.
Qed.

(** ** Routes that only read *)

Lemma reading_routes_same_stores (env : Env) (req : Request) (w : World) :
  writes req = false ->
  let w' := out_world (serve env req w) in
  users w' = users w /\ documents w' = documents w
  /\ uploads w' = uploads w /\ next_oid w' = next_oid w.
Proof.
  intros Hw. cbv zeta. unfold serve, route.
  destruct req as [| e pw | h | h | h i | | h text |]; try discriminate;
    try (destruct (authMiddleware_cases env h (initial w)) as [[a Ha]|[m Hd]];
         [rewrite (run_accepted _ _ _ a) by exact Ha
         |rewrite (run_denied _ _ _ m) by exact Hd; now repeat split]).
  - js_run_all; try now repeat split.
    all: destruct (find_user_by_email e (users w)) as [u|]; js_run_all;
      try now repeat split.
    all: destruct (bcrypt_compare pw (password u)); js_run_all;
      now repeat split.
  - js_run_all; try now repeat split.
    all: destruct (List.find _ (users w)); js_run_all; now repeat split.
  - js_run_all; now repeat split.
  - js_run_all; try now repeat split.
    all: destruct (find_document i a (documents w)); js_run_all;
      now repeat split.
  - destruct text as [[|c t]|]; js_run_all; try now repeat split.
    all: destruct (Api.s_success (simplify_data env)); js_run_all;
      now repeat split.
  - js_run_all. now repeat split.
Qed.

(** Login, profile, the two document reads, simplify-jargons and health
    never change the users, the documents, the upload directory or the id
    counter, whatever the header, the input and the failures are. *)
Theorem reading_routes_leave_stores (env : Env) (req : Request) (w : World) :
  writes req = false ->
  let w' := out_world (serve env req w) in
  users w' = users w /\ documents w' = documents w
  /\ uploads w' = uploads w /\ next_oid w' = next_oid w.
Proof. exact (reading_routes_same_stores env req w). Qed.

(** ** Lists of users and documents *)

Lemma find_user_by_email_none (e : string) (us : list User) :
  find_user_by_email e us = None <-> ~ In e (map email us).
Proof.
  unfold find_user_by_email. induction us as [|u us IH]; simpl; [tauto|].
  destruct (String.eqb (email u) e) eqn:E.
  - apply String.eqb_eq in E. split; [discriminate|]. intros H. destruct H. now left.
  - apply String.eqb_neq in E. rewrite IH. tauto.
Qed.

Lemma find_user_by_email_snoc (e : string) (us : list User) (u : User) :
  ~ In e (map email us) -> email u = e ->
  find_user_by_email e (us ++ [u]) = Some u.
Proof.
  intros Hn He. unfold find_user_by_email.
  induction us as [|x us IH]; simpl in *.
  - now rewrite He, String.eqb_refl.
  - destruct (String.eqb (email x) e) eqn:E.
    + apply String.eqb_eq in E. tauto.
    + apply IH. tauto.
Qed.

Lemma NoDup_snoc {A} (l : list A) (x : A) :
  List.NoDup l -> ~ In x l -> List.NoDup (l ++ [x]).
Proof.
  induction l as [|a l IH]; simpl; intros Hnd Hn.
  - constructor; [tauto | constructor].
  - inversion Hnd; subst. constructor.
    + rewrite in_app_iff. simpl. intuition congruence.
    + apply IH; tauto.
Qed.

Lemma below_not_in {A} (f : A -> nat) (n : nat) (l : list A) :
  Forall (fun x => f x < n) l -> ~ In n (map f l).
Proof.
  intros Hl Hin. apply in_map_iff in Hin as (x & Hx & Hin).
  rewrite Forall_forall in Hl. apply list_elem_of_In in Hin.
  specialize (Hl x Hin). lia.
Qed.

Lemma upsert_fresh (d : Document) (ds : list Document) :
  ~ In (_id d) (map _id ds) -> upsert d ds = (ds ++ [d])%list.
Proof.
  induction ds as [|x ds IH]; simpl; intros Hn; [reflexivity|].
  destruct (Nat.eqb (_id x) (_id d)) eqn:E.
  - apply Nat.eqb_eq in E. tauto.
  - rewrite IH by tauto. reflexivity.
Qed.

Lemma upsert_upsert (d1 d2 : Document) (ds : list Document) :
  _id d1 = _id d2 -> upsert d2 (upsert d1 ds) = upsert d2 ds.
Proof.
  intros Hi. induction ds as [|x ds IH]; simpl.
  - now rewrite Hi, Nat.eqb_refl.
  - rewrite Hi. destruct (Nat.eqb (_id x) (_id d2)) eqn:E; simpl.
    + now rewrite Hi, Nat.eqb_refl.
    + now rewrite E, IH.
Qed.

(** ** Signup *)

(** What signup does to the store, whatever fails: either nothing, or it
    appends one user who has the email of the request, a fresh id and as
    password the bcrypt hash (never the password as it was sent), and this
    only for an email that no user had; the answer is 201 exactly when the
    user was appended. Documents and files are never touched. *)
Lemma signup_effect (env : Env) (fn ln e pw : string) (w : World) :
  let o := serve env (PostSignup fn ln e pw) w in
  let u := {| user_id := next_oid w; firstName := fn; lastName := ln;
              email := e; password := bcrypt_hash pw 10 (salt env) |} in
  documents (out_world o) = documents w
  /\ uploads (out_world o) = uploads w
  /\ ((users (out_world o) = users w
       /\ next_oid (out_world o) = next_oid w
       /\ out_response o <> json 201 (Message "User registered successfully"))
      \/ (~ In e (map email (users w))
          /\ users (out_world o) = (users w ++ [u])%list
          /\ next_oid (out_world o) = S (next_oid w)
          /\ out_response o = json 201 (Message "User registered successfully"))).
Proof.
  cbv zeta. unfold serve, route.
  js_run_all; try (repeat split; left; repeat split; discriminate).
  all: destruct (find_user_by_email e (users w)) as [x|] eqn:Hf; js_run_all;
    try (repeat split; left; repeat split; discriminate).
  all: rewrite ?Hf; js_run_all;
    try (repeat split; left; repeat split; discriminate).
  all: repeat split; right; repeat split.
  all: now apply find_user_by_email_none.
Qed.

Theorem signup_adds_at_most_one_user (env : Env) (fn ln e pw : string)
    (w : World) :
  let o := serve env (PostSignup fn ln e pw) w in
  let u := {| user_id := next_oid w; firstName := fn; lastName := ln;
              email := e; password := bcrypt_hash pw 10 (salt env) |} in
  documents (out_world o) = documents w
  /\ uploads (out_world o) = uploads w
  /\ ((users (out_world o) = users w
       /\ next_oid (out_world o) = next_oid w
       /\ out_response o <> json 201 (Message "User registered successfully"))
      \/ (~ In e (map email (users w))
          /\ users (out_world o) = (users w ++ [u])%list
          /\ next_oid (out_world o) = S (next_oid w)
          /\ out_response o = json 201 (Message "User registered successfully"))).
Proof. exact (signup_effect env fn ln e pw w). Qed.

(** Signing up with an email that no user has, when the store and bcrypt
    answer, is answered 201, and the new user is the one a lookup of the
    email finds afterwards. *)
Theorem signup_new_email (env : Env) (fn ln e pw : string) (w : World) :
  ~ In e (map email (users w)) ->
  throws env SignupFindOne = None ->
  throws env SignupHash = None ->
  throws env SignupCreate = None ->
  let o := serve env (PostSignup fn ln e pw) w in
  let u := {| user_id := next_oid w; firstName := fn; lastName := ln;
              email := e; password := bcrypt_hash pw 10 (salt env) |} in
  out_response o = json 201 (Message "User registered successfully")
  /\ users (out_world o) = (users w ++ [u])%list
  /\ find_user_by_email e (users (out_world o)) = Some u.
Proof.
  intros Hn H1 H2 H3. cbv zeta. unfold serve, route.
  pose proof (proj2 (find_user_by_email_none e (users w)) Hn) as Hf.
  js_run_all. rewrite Hf. js_run_all. rewrite Hf. js_run_all.
  repeat split. now apply find_user_by_email_snoc.
Qed.

(** ** What an upload does to the store *)

Lemma upload_effect (env : Env) (h : option string) (part : option FilePart)
    (w : World) :
  Forall (fun d => _id d < next_oid w) (documents w) ->
  let w' := out_world (serve env (PostUpload h part) w) in
  users w' = users w
  /\ ((documents w' = documents w
       /\ next_oid w <= next_oid w' <= S (next_oid w))
      \/ exists a d,
            documents w' = (documents w ++ [d])%list
            /\ authMiddleware env h (initial w) = (Normal a, initial w)
            /\ _id d = next_oid w /\ userId d = a
            /\ fileName d = match part with
                            | Some p => part_originalname p
                            | None => ""
                            end
            /\ next_oid w' = S (next_oid w)).
Proof.
  intros Hb. pose proof (below_not_in _id _ _ Hb) as Hfresh. cbv zeta.
  destruct (authMiddleware_cases env h (initial w)) as [[a Ha]|[m Hd]].
  2: { unfold serve, route. rewrite (run_denied _ _ _ m) by exact Hd.
       split; [reflexivity|]. left. simpl. split; [reflexivity|lia]. }
  destruct part as [p|].
  2: { unfold serve, route. rewrite (run_accepted _ _ _ a) by exact Ha.
       js_run_all. split; [reflexivity|]. left. split; [reflexivity|lia]. }
  destruct (String.eqb (part_mimetype p) "application/pdf") eqn:Hm.
  2: { unfold serve, route. rewrite (run_accepted _ _ _ a) by exact Ha.
       js_eval_all. rewrite Hm. js_eval_all.
       split; [reflexivity|]. left. split; [reflexivity|lia]. }
  destruct (fileSize <? part_size p)%N eqn:Hs.
  { unfold serve, route. rewrite (run_accepted _ _ _ a) by exact Ha.
    js_eval_all. rewrite Hm, Hs. js_eval_all.
    split; [reflexivity|]. left. split; [reflexivity|lia]. }
  apply String.eqb_eq in Hm. apply N.ltb_ge in Hs.
  rewrite (upload_accepted env h a p w Ha Hm Hs).
  js_run; (split; [reflexivity|]);
    rewrite ?upsert_upsert by reflexivity;
    first [ left; split; [reflexivity|lia]
          | right; exists a; eexists;
            split; [apply upsert_fresh; exact Hfresh|];
            repeat split; assumption ].
Qed.

(** Whatever fails, an upload leaves the users alone and changes the
    documents in at most one way: it appends one document, with a fresh id,
    owned by the user who passed the gate and named after the uploaded
    file. No stored document is changed or removed. *)
Theorem upload_appends_own_document (env : Env) (h : option string)
    (part : option FilePart) (w : World) :
  Forall (fun d => _id d < next_oid w) (documents w) ->
  let w' := out_world (serve env (PostUpload h part) w) in
  users w' = users w
  /\ ((documents w' = documents w
       /\ next_oid w <= next_oid w' <= S (next_oid w))
      \/ exists a d,
            documents w' = (documents w ++ [d])%list
            /\ authMiddleware env h (initial w) = (Normal a, initial w)
            /\ _id d = next_oid w /\ userId d = a
            /\ fileName d = match part with
                            | Some p => part_originalname p
                            | None => ""
                            end
            /\ next_oid w' = S (next_oid w)).
Proof. exact (upload_effect env h part w). Qed.

(** ** The invariant of the store *)

Lemma Forall_lt_mono {A} (f : A -> nat) (n m : nat) (l : list A) :
  n <= m -> Forall (fun x => f x < n) l -> Forall (fun x => f x < m) l.
Proof.
  intros Hnm Hl. rewrite Forall_forall in *. intros x Hx.
  specialize (Hl x Hx). lia.
Qed.

Lemma serve_keeps_well_formed (env : Env) (req : Request) (w : World) :
  well_formed w -> well_formed (out_world (serve env req w)).
Proof.
  intros (He & Hu & Hd & Hbu & Hbd).
  destruct (writes req) eqn:Hw.
  - destruct req as [fn ln e pw| | | | | h part | |]; try discriminate.
    + destruct (signup_effect env fn ln e pw w)
        as (Hdocs & _ & [(Hus & Hn & _) | (Hnew & Hus & Hn & _)]);
        unfold well_formed, ids_below; rewrite Hdocs, Hus, Hn.
      * tauto.
      * rewrite !map_app. simpl.
        repeat split.
        -- now apply NoDup_snoc.
        -- apply NoDup_snoc; [exact Hu|]. now apply below_not_in.
        -- exact Hd.
        -- apply Forall_app. split.
           ++ now apply (Forall_lt_mono _ (next_oid w)); [lia|].
           ++ apply Forall_singleton. simpl. lia.
        -- now apply (Forall_lt_mono _ (next_oid w)); [lia|].
    + destruct (upload_effect env h part w Hbd)
        as (Hus & [(Hdocs & Hn) | (a & d & Hdocs & _ & Hi & _ & _ & Hn)]);
        unfold well_formed, ids_below; rewrite Hdocs, Hus.
      * repeat split; try assumption.
        -- now apply (Forall_lt_mono _ (next_oid w)); [lia|].
        -- now apply (Forall_lt_mono _ (next_oid w)); [lia|].
      * rewrite Hn, !map_app. simpl. repeat split; try assumption.
        -- apply NoDup_snoc; [exact Hd|]. rewrite Hi. now apply below_not_in.
        -- now apply (Forall_lt_mono _ (next_oid w)); [lia|].
        -- apply Forall_app. split.
           ++ now apply (Forall_lt_mono _ (next_oid w)); [lia|].
           ++ apply Forall_singleton. lia.
  - destruct (reading_routes_same_stores env req w Hw) as (Hus & Hdocs & _ & Hn).
    unfold well_formed, ids_below. rewrite Hus, Hdocs, Hn. tauto.
Qed.

(** Every request, whatever fails during it, keeps the store well formed:
    emails stay unique, user ids and document ids stay unique, and every
    id stays below the id counter. *)
Theorem serve_preserves_well_formed (env : Env) (req : Request) (w : World) :
  well_formed w -> well_formed (out_world (serve env req w)).
Proof. exact (serve_keeps_well_formed env req w). Qed.

(** The worlds the server can be in: the empty store, and the outcome of
    any request in any environment on such a world. *)
Inductive reachable : World -> Prop :=
| reachable_empty : reachable empty_world
| reachable_serve (env : Env) (req : Request) (w : World) :
    reachable w -> reachable (out_world (serve env req w)).

(** Starting from the empty store, no sequence of requests and failures
    leads to two users with one email or to two documents with one id. *)
Theorem reachable_well_formed (w : World) :
  reachable w -> well_formed w.
Proof.
  induction 1 as [|env req w _ IH].
  - repeat split; simpl; constructor.
  - now apply serve_keeps_well_formed.
Qed.

(** ** Listing the documents *)

Lemma insert_desc_perm (d : Document) (l : list Document) :
  Permutation (insert_desc d l) (d :: l).
Proof.
  induction l as [|x l IH]; simpl; [reflexivity|].
  destruct (uploadDate x <=? uploadDate d)%N; [reflexivity|].
  rewrite IH. apply perm_swap.
Qed.

Lemma sort_desc_perm (l : list Document) : Permutation (sort_desc l) l.
Proof.
  unfold sort_desc. induction l as [|x l IH]; simpl; [reflexivity|].
  rewrite insert_desc_perm. now constructor.
Qed.

Lemma insert_desc_HdRel (x d : Document) (l : list Document) :
  newer_or_same x d -> HdRel newer_or_same x l ->
  HdRel newer_or_same x (insert_desc d l).
Proof.
  intros Hxd Hl. destruct l as [|y l]; simpl; [now constructor|].
  destruct (uploadDate y <=? uploadDate d)%N; constructor; [exact Hxd|].
  now inversion Hl.
Qed.

Lemma insert_desc_sorted (d : Document) (l : list Document) :
  Sorted newer_or_same l -> Sorted newer_or_same (insert_desc d l).
Proof.
  induction l as [|x l IH]; simpl; intros Hs.
  - repeat constructor.
  - inversion Hs as [|? ? Hl Hhd]; subst.
    destruct (uploadDate x <=? uploadDate d)%N eqn:E.
    + apply N.leb_le in E. constructor; [exact Hs|]. now constructor.
    + apply N.leb_gt in E. constructor; [now apply IH|].
      apply insert_desc_HdRel; [|exact Hhd].
      unfold newer_or_same. lia.
Qed.

Lemma sort_desc_sorted (l : list Document) : Sorted newer_or_same (sort_desc l).
Proof.
  unfold sort_desc. induction l as [|x l IH]; simpl; [constructor|].
  now apply insert_desc_sorted.
Qed.

Lemma hydrate_present (d : Document) :
  keyTerms d <> None -> importantDates d <> None -> partiesInvolved d <> None ->
  hydrate d = d.
Proof.
  destruct d as [i u f t st c co [k|] su [im|] [pa|] ja];
    intros H1 H2 H3; unfold hydrate, array_default; cbn in *;
    solve [reflexivity | now destruct H1 | now destruct H2 | now destruct H3].
Qed.

Lemma map_hydrate_sorted (l : list Document) :
  Sorted newer_or_same l -> Sorted newer_or_same (map hydrate l).
Proof.
  induction 1 as [|x l Hl IH Hhd]; simpl; constructor; [exact IH|].
  destruct Hhd; simpl; constructor. assumption.
Qed.

(** The list a user is sent holds exactly the stored documents of this
    user (each as often as it is stored, none of another user), each as
    mongoose reads it (an array field the record lacks is the empty
    array), and is ordered newest first. *)
Theorem list_documents_own_newest_first (env : Env) (h : option string)
    (a : ObjectId) (w : World) :
  authMiddleware env h (initial w) = (Normal a, initial w) ->
  throws env DocumentsFind = None ->
  exists ds,
    out_response (serve env (GetDocuments h) w) =
      json 200 (DocumentsJson (map hydrate ds))
    /\ Permutation ds (List.filter (fun d => Nat.eqb (userId d) a) (documents w))
    /\ Sorted newer_or_same (map hydrate ds)
    /\ (forall d, In d ds -> In d (documents w) /\ userId d = a)
    /\ (forall d, In d (map hydrate ds) -> userId d = a).
Proof.
  intros Ha Ht. unfold serve, route.
  rewrite (run_accepted _ _ _ a) by exact Ha.
  js_run_all. eexists. split; [reflexivity|].
  split; [apply sort_desc_perm|].
  split; [apply map_hydrate_sorted, sort_desc_sorted|].
  assert (Hown : forall d,
            In d (sort_desc (List.filter (fun d => Nat.eqb (userId d) a)
                               (documents w))) ->
            In d (documents w) /\ userId d = a).
  { intros d Hin.
    apply (Permutation_in _ (sort_desc_perm _)) in Hin.
    apply List.filter_In in Hin as [Hin Hu]. now apply Nat.eqb_eq in Hu. }
  split; [exact Hown|].
  intros d Hin. apply in_map_iff in Hin as (x & <- & Hx).
  now destruct (Hown x Hx).
Qed.

(** ** Reading one's own document and profile *)

Lemma find_document_own (d : Document) (ds : list Document) :
  List.NoDup (map _id ds) -> In d ds ->
  find_document (_id d) (userId d) ds = Some d.
Proof.
  intros Hnd Hin. unfold find_document.
  destruct (List.find _ ds) as [x|] eqn:Hf.
  - apply List.find_some in Hf as [Hx Hb].
    apply andb_prop in Hb as [Hi _]. apply Nat.eqb_eq in Hi.
    now rewrite (unique_id ds x d Hnd Hx Hin Hi).
  - apply (List.find_none _ _ Hf) in Hin.
    now rewrite !Nat.eqb_refl in Hin.
Qed.

(** A user who passed the gate and asks for a document of their own is
    sent this document as mongoose reads it, when the store answers: the
    stored record with the empty array for an array field it lacks, and so
    the stored record itself when it has all three array fields. *)
Theorem get_document_of_owner (env : Env) (h : option string)
    (d : Document) (w : World) :
  authMiddleware env h (initial w) = (Normal (userId d), initial w) ->
  List.NoDup (map _id (documents w)) ->
  In d (documents w) ->
  throws env DocumentFindOne = None ->
  let r := out_response (serve env (GetDocument h (_id d)) w) in
  r = json 200 (DocumentJson (hydrate d))
  /\ (keyTerms d <> None -> importantDates d <> None ->
      partiesInvolved d <> None -> r = json 200 (DocumentJson d)).
Proof.
  intros Ha Hnd Hin Ht r. subst r. unfold serve, route.
  rewrite (run_accepted _ _ _ (userId d)) by exact Ha.
  js_run_all. rewrite (find_document_own d _ Hnd Hin). js_run_all.
  split; [reflexivity|]. intros H1 H2 H3.
  now rewrite (hydrate_present d H1 H2 H3).
Qed.

Lemma find_user_by_id (u : User) (us : list User) :
  List.NoDup (map user_id us) -> In u us ->
  List.find (fun x => Nat.eqb (user_id x) (user_id u)) us = Some u.
Proof.
  induction us as [|x us IH]; simpl; intros Hnd Hin; [contradiction|].
  inversion Hnd as [|? ? Hn Hnd']; subst.
  destruct Hin as [->|Hin].
  - now rewrite Nat.eqb_refl.
  - destruct (Nat.eqb (user_id x) (user_id u)) eqn:E.
    + apply Nat.eqb_eq in E. destruct Hn. rewrite E. now apply List.in_map.
    + now apply IH.
Qed.

Lemma find_user_by_id_none (a : ObjectId) (us : list User) :
  ~ In a (map user_id us) ->
  List.find (fun x => Nat.eqb (user_id x) a) us = None.
Proof.
  induction us as [|x us IH]; simpl; intros Hn; [reflexivity|].
  destruct (Nat.eqb (user_id x) a) eqn:E.
  - apply Nat.eqb_eq in E. tauto.
  - apply IH. tauto.
Qed.

(** The profile of the user the token names is sent without the password
    hash; when this user is gone from the store the answer is the 404
    [User not found]. *)
Theorem profile_of_token_user (env : Env) (h : option string)
    (a : ObjectId) (w : World) :
  authMiddleware env h (initial w) = (Normal a, initial w) ->
  List.NoDup (map user_id (users w)) ->
  throws env ProfileFindById = None ->
  let o := serve env (GetProfile h) w in
  (forall u, In u (users w) -> user_id u = a ->
     out_response o = json 200 (UserJson (public u)))
  /\ (~ In a (map user_id (users w)) ->
      out_response o = json 404 (Message "User not found")).
Proof.
  intros Ha Hnd Ht. cbv zeta. unfold serve, route.
  rewrite (run_accepted _ _ _ a) by exact Ha. split.
  - intros u Hin <-. js_run_all.
    rewrite (find_user_by_id u _ Hnd Hin). reflexivity.
  - intros Hn. js_run_all. rewrite (find_user_by_id_none a _ Hn). reflexivity.
Qed.

(** ** How the routes compose *)

Lemma login_response (env : Env) (e pw : string) (w : World) (u : User) :
  find_user_by_email e (users w) = Some u ->
  bcrypt_compare pw (password u) = true ->
  throws env LoginFindOne = None ->
  throws env LoginCompare = None ->
  throws env LoginSign = None ->
  out_response (serve env (PostLogin e pw) w) =
    json 200 (MessageToken "Login successful"
                (jwt_sign (user_id u) (JWT_SECRET env) expiresIn (now env))).
Proof.
  intros Hf Hc H1 H2 H3. unfold serve, route.
  js_run_all. rewrite Hf. js_run_all. rewrite Hc. js_run_all. reflexivity.
Qed.

(** The token of a successful login, sent as a bearer token to the profile
    route within the hour, brings back the profile of the user who logged
    in. *)
Theorem login_then_profile (L : CryptoLaws C) (env env' : Env)
    (e pw : string) (w : World) (u : User) :
  List.NoDup (map user_id (users w)) ->
  find_user_by_email e (users w) = Some u ->
  bcrypt_compare pw (password u) = true ->
  throws env LoginFindOne = None ->
  throws env LoginCompare = None ->
  throws env LoginSign = None ->
  JWT_SECRET env' = JWT_SECRET env ->
  (now env' < now env + 3600)%N ->
  throws env' ProfileFindById = None ->
  let o := serve env (PostLogin e pw) w in
  exists token,
    out_response o = json 200 (MessageToken "Login successful" token)
    /\ out_response
         (serve env' (GetProfile (Some ("Bearer " +:+ token))) (out_world o)) =
         json 200 (UserJson (public u)).
Proof.
  intros Hnd Hf Hc H1 H2 H3 Hs Ht Hp o. subst o.
  eexists. split; [apply login_response; eassumption|].
  destruct (reading_routes_same_stores env (PostLogin e pw) w eq_refl)
    as (Hus & _).
  set (w1 := out_world (serve env (PostLogin e pw) w)) in *.
  pose proof (authMiddleware_signed L env' (user_id u) expiresIn (now env)
                (initial w1)) as Ha.
  rewrite Hs in Ha. apply N.ltb_lt in Ht. unfold expiresIn in Ha at 2.
  rewrite Ht in Ha.
  unfold serve at 1, route. rewrite (run_accepted _ _ _ (user_id u)) by exact Ha.
  js_run_all. rewrite Hus.
  apply List.find_some in Hf as [Hin _].
  rewrite (find_user_by_id u _ Hnd Hin). reflexivity.
Qed.

(** After a successful signup, a login with the same email and password
    gets a token for the new user, given that bcrypt accepts the password
    against the hash it made of it. *)
Theorem signup_then_login_succeeds (env env' : Env) (fn ln e pw : string) (w : World) :
  ~ In e (map email (users w)) ->
  throws env SignupFindOne = None ->
  throws env SignupHash = None ->
  throws env SignupCreate = None ->
  bcrypt_compare pw (bcrypt_hash pw 10 (salt env)) = true ->
  throws env' LoginFindOne = None ->
  throws env' LoginCompare = None ->
  throws env' LoginSign = None ->
  let o := serve env (PostSignup fn ln e pw) w in
  out_response o = json 201 (Message "User registered successfully")
  /\ out_response (serve env' (PostLogin e pw) (out_world o)) =
       json 200 (MessageToken "Login successful"
                   (jwt_sign (next_oid w) (JWT_SECRET env') expiresIn (now env'))).
Proof.
  intros Hn H1 H2 H3 Hc H4 H5 H6 o. subst o.
  destruct (signup_effect env fn ln e pw w)
    as (_ & _ & [(_ & _ & Hr) | (_ & Hus & _ & Hr)]).
  - exfalso. apply Hr. unfold serve, route.
    pose proof (proj2 (find_user_by_email_none e (users w)) Hn) as Hf.
    js_run_all. rewrite Hf. js_run_all. rewrite Hf. js_run_all. reflexivity.
  - split; [exact Hr|].
    eapply (login_response env' e pw _
              {| user_id := next_oid w; firstName := fn; lastName := ln;
                 email := e; password := bcrypt_hash pw 10 (salt env) |});
      try assumption.
    rewrite Hus. now apply find_user_by_email_snoc.
Qed.

Lemma find_document_snoc (d : Document) (ds : list Document) :
  ~ In (_id d) (map _id ds) ->
  find_document (_id d) (userId d) (ds ++ [d]) = Some d.
Proof.
  intros Hn. unfold find_document.
  induction ds as [|x ds IH]; simpl in *.
  - now rewrite !Nat.eqb_refl.
  - destruct (Nat.eqb (_id x) (_id d)) eqn:E.
    + apply Nat.eqb_eq in E. tauto.
    + simpl. apply IH. tauto.
Qed.

Lemma upload_success_world (env : Env) (h : option string)
    (a : ObjectId) (p : FilePart) (w : World) :
  Forall (fun d => _id d < next_oid w) (documents w) ->
  authMiddleware env h (initial w) = (Normal a, initial w) ->
  part_mimetype p = "application/pdf" ->
  (part_size p <= fileSize)%N ->
  throws env UploadSaveCreated = None ->
  throws env UploadClassify = None ->
  Api.success (classify_data env) = true ->
  throws env UploadSaveAnalyzed = None ->
  throws env UploadUnlink = None ->
  let o := serve env (PostUpload h (Some p)) w in
  exists d,
    out_response o =
      json 200 (MessageDocument "Document uploaded and analyzed successfully" d)
    /\ documents (out_world o) = (documents w ++ [d])%list
    /\ _id d = next_oid w /\ userId d = a /\ status d = analyzed
    /\ keyTerms d = Api.key_terms (classify_data env)
    /\ importantDates d = Api.important_dates (classify_data env)
    /\ partiesInvolved d = Api.parties_involved (classify_data env).
Proof.
  intros Hb Ha Hm Hs H1 H2 Hok H3 H4 o. subst o.
  pose proof (below_not_in _id _ _ Hb) as Hfresh.
  rewrite (upload_accepted env h a p w Ha Hm Hs).
  js_run. eexists. split; [reflexivity|].
  rewrite upsert_upsert by reflexivity.
  split; [apply upsert_fresh; exact Hfresh|]. repeat split.
Qed.

(** After a successful upload, the owner who asks for the new id is sent
    the document of the upload response as mongoose reads it back: the
    same fields, except that an array field the service left out
    ([key_terms], [important_dates], [parties_involved]), which the upload
    response does not have, is the empty array; when the service sent all
    three, the two responses carry the same document. *)
Theorem upload_then_get_document (env env' : Env) (h h' : option string)
    (a : ObjectId) (p : FilePart) (w : World) :
  Forall (fun d => _id d < next_oid w) (documents w) ->
  authMiddleware env h (initial w) = (Normal a, initial w) ->
  part_mimetype p = "application/pdf" ->
  (part_size p <= fileSize)%N ->
  throws env UploadSaveCreated = None ->
  throws env UploadClassify = None ->
  Api.success (classify_data env) = true ->
  throws env UploadSaveAnalyzed = None ->
  throws env UploadUnlink = None ->
  let o := serve env (PostUpload h (Some p)) w in
  let data := classify_data env in
  authMiddleware env' h' (initial (out_world o)) = (Normal a, initial (out_world o)) ->
  throws env' DocumentFindOne = None ->
  exists d,
    out_response o =
      json 200 (MessageDocument "Document uploaded and analyzed successfully" d)
    /\ out_response (serve env' (GetDocument h' (next_oid w)) (out_world o)) =
         json 200 (DocumentJson (hydrate d))
    /\ keyTerms d = Api.key_terms data
    /\ importantDates d = Api.important_dates data
    /\ partiesInvolved d = Api.parties_involved data
    /\ (Api.key_terms data <> None -> Api.important_dates data <> None ->
        Api.parties_involved data <> None -> hydrate d = d).
Proof.
  intros Hb Ha Hm Hs H1 H2 Hok H3 H4 o data Ha' Hg. subst o data.
  pose proof (below_not_in _id _ _ Hb) as Hfresh.
  destruct (upload_success_world env h a p w Hb Ha Hm Hs H1 H2 Hok H3 H4)
    as (d & Hr & Hdocs & Hi & Hu & _ & Hk & Him & Hpa).
  exists d. split; [exact Hr|].
  set (w1 := out_world (serve env (PostUpload h (Some p)) w)) in *.
  split.
  - unfold serve, route. rewrite (run_accepted _ _ _ a) by exact Ha'.
    js_run_all. rewrite Hdocs, <- Hi, <- Hu.
    rewrite find_document_snoc by (rewrite Hi; exact Hfresh).
    js_run_all. reflexivity.
  - split; [exact Hk|]. split; [exact Him|]. split; [exact Hpa|].
    intros N1 N2 N3. apply hydrate_present; congruence.
Qed.

(** ** Which errors are answered *)


(** Upload answers every request and lets no error out, provided the two
    calls of its catch block (the save of line 270 and the deletion of
    line 275) do not throw. *)
Theorem upload_answers_when_catch_block_succeeds (env : Env)
    (h : option string) (part : option FilePart) (w : World) :
  throws env UploadSaveError = None ->
  throws env UploadUnlinkError = None ->
  let o := serve env (PostUpload h part) w in
  out_unhandled o = None /\ exists r, out_response o = Some r.
Proof.
  intros H1 H2. cbv zeta.
  destruct (authMiddleware_cases env h (initial w)) as [[a Ha]|[m Hd]].
  2: { unfold serve, route. rewrite (run_denied _ _ _ m) by exact Hd.
       answered. }
  destruct part as [p|].
  2: { unfold serve, route. rewrite (run_accepted _ _ _ a) by exact Ha.
       js_run_all. answered. }
  destruct (String.eqb (part_mimetype p) "application/pdf") eqn:Hm.
  2: { unfold serve, route. rewrite (run_accepted _ _ _ a) by exact Ha.
       js_eval_all. rewrite Hm. js_eval_all.
       answered. }
  destruct (fileSize <? part_size p)%N eqn:Hs.
  { unfold serve, route. rewrite (run_accepted _ _ _ a) by exact Ha.
    js_eval_all. rewrite Hm, Hs. js_eval_all.
    answered. }
  apply String.eqb_eq in Hm. apply N.ltb_ge in Hs.
  rewrite (upload_accepted env h a p w Ha Hm Hs).
  js_run; answered.
Qed.

(** Upload answers 200 only after everything went through: the service
    answered with success, no call threw, the stored document is the one in
    the response and has status [analyzed], and the temporary file is gone. *)
Theorem upload_200_only_after_success (env : Env) (h : option string)
    (part : option FilePart) (w : World) (b : Body) :
  let o := serve env (PostUpload h part) w in
  out_response o = json 200 b ->
  Api.success (classify_data env) = true
  /\ throws env UploadSaveCreated = None
  /\ throws env UploadClassify = None
  /\ throws env UploadSaveAnalyzed = None
  /\ throws env UploadUnlink = None
  /\ out_unhandled o = None
  /\ (upload_path env ∉ uploads (out_world o))
  /\ exists d,
       b = MessageDocument "Document uploaded and analyzed successfully" d
       /\ stored (next_oid w) (out_world o) = Some d
       /\ status d = analyzed.
Proof.
  cbv zeta.
  destruct (authMiddleware_cases env h (initial w)) as [[a Ha]|[m Hd]].
  2: { unfold serve, route. rewrite (run_denied _ _ _ m) by exact Hd.
       unfold json. simpl. intros Hb. discriminate Hb. }
  destruct part as [p|].
  2: { unfold serve, route. rewrite (run_accepted _ _ _ a) by exact Ha.
       js_eval_all. intros Hb. discriminate Hb. }
  destruct (String.eqb (part_mimetype p) "application/pdf") eqn:Hm.
  2: { unfold serve, route. rewrite (run_accepted _ _ _ a) by exact Ha.
       js_eval_all. rewrite Hm. js_eval_all. intros Hb. discriminate Hb. }
  destruct (fileSize <? part_size p)%N eqn:Hs.
  { unfold serve, route. rewrite (run_accepted _ _ _ a) by exact Ha.
    js_eval_all. rewrite Hm, Hs. js_eval_all. intros Hb. discriminate Hb. }
  apply String.eqb_eq in Hm. apply N.ltb_ge in Hs.
  rewrite (upload_accepted env h a p w Ha Hm Hs).
  js_run; try (intros Hb; discriminate Hb).
  all: intros Hb; inversion Hb; subst.
  all: repeat (split; [reflexivity|]).
  all: split; [apply not_in_unlinked|].
  all: eexists; split; [reflexivity|].
  all: split; [apply find_upsert; reflexivity | reflexivity].
Qed.

(** ** The messages of a failed upload *)

(** When the document has been created and the catch block goes through,
    a failed classification is answered 500 with a message that depends on
    the failure: [ECONNREFUSED] gives the service-not-available message;
    otherwise an error that carries a response gives the [error] text of
    that response, or [Model processing error] when it has none or an empty
    one; every other error, and an answer without [success], gives
    [Document processing failed]. *)
Theorem upload_failure_message (env : Env) (h : option string)
    (a : ObjectId) (p : FilePart) (w : World) :
  authMiddleware env h (initial w) = (Normal a, initial w) ->
  part_mimetype p = "application/pdf" ->
  (part_size p <= fileSize)%N ->
  throws env UploadSaveCreated = None ->
  throws env UploadSaveError = None ->
  throws env UploadUnlinkError = None ->
  let r := out_response (serve env (PostUpload h (Some p)) w) in
  (forall e, throws env UploadClassify = Some e ->
     r = json 500
           (Message
              (if bool_decide (code e = Some "ECONNREFUSED")
               then "Model service is not available. Please try again later."
               else match response e with
                    | Some (Some (String c t)) => String c t
                    | Some _ => "Model processing error"
                    | None => "Document processing failed"
                    end)))
  /\ (throws env UploadClassify = None ->
      Api.success (classify_data env) = false ->
      r = json 500 (Message "Document processing failed")).
Proof.
  intros Ha Hm Hs H1 H2 H3 r. subst r.
  rewrite (upload_accepted env h a p w Ha Hm Hs). split.
  - intros e He. js_run. unfold errorMessage, or_string.
    destruct (bool_decide (code e = Some "ECONNREFUSED")); [reflexivity|].
    now destruct (response e) as [[[|c t]|]|].
  - intros He Hok. js_run. reflexivity.
Qed.

(** ** Simplify-jargons *)

(** Without a text, or with the empty text, the request is answered 400
    and the model service is not called: the world, trace included, is
    unchanged. *)
Theorem simplify_jargons_without_text (env : Env) (h : option string)
    (a : ObjectId) (text : option string) (w : World) :
  authMiddleware env h (initial w) = (Normal a, initial w) ->
  text = None \/ text = Some "" ->
  serve env (PostSimplifyJargons h text) w =
    {| out_response := json 400 (Message "No text provided");
       out_unhandled := None; out_world := w |}.
Proof.
  intros Ha Ht. unfold serve, route.
  rewrite (run_accepted _ _ _ a) by exact Ha.
  destruct Ht as [-> | ->]; js_run_all; now destruct w.
Qed.

(** With a text, the model service is called exactly once and no store is
    read or written. The answer is 200 exactly when the call went through
    and the service answered with [success]; it then carries the fields of
    the service's answer. When the service cannot be reached the answer is
    500 with the service-not-available message, and an answer without
    [success] gives 500 [Jargon simplification failed]. *)
Theorem simplify_jargons_with_text (env : Env) (h : option string)
    (a : ObjectId) (c : ascii) (t : string) (w : World) :
  authMiddleware env h (initial w) = (Normal a, initial w) ->
  let o := serve env (PostSimplifyJargons h (Some (String c t))) w in
  let data := simplify_data env in
  trace (out_world o) =
    (trace w ++ [ModelPost "http://localhost:5001/simplify-jargons"])%list
  /\ ((exists b, out_response o = json 200 b) <->
        throws env SimplifyPost = None /\ Api.s_success data = true)
  /\ (throws env SimplifyPost = None -> Api.s_success data = true ->
      exists d,
        out_response o = json 200 (SimplifyJson d)
        /\ Api.s_success d = true
        /\ Api.s_original_text d = Api.s_original_text data
        /\ Api.s_simplified_text d = Api.s_simplified_text data
        /\ Api.s_jargons_found d = Api.s_jargons_found data
        /\ Api.s_total_jargons d = Api.s_total_jargons data
        /\ Api.s_complexity_analysis d = Api.s_complexity_analysis data
        /\ Api.s_jargon_summary d = Api.s_jargon_summary data)
  /\ (forall e, throws env SimplifyPost = Some e ->
        code e = Some "ECONNREFUSED" ->
        out_response o =
          json 500
            (Message "Model service is not available. Please try again later."))
  /\ (throws env SimplifyPost = None -> Api.s_success data = false ->
      out_response o = json 500 (Message "Jargon simplification failed")).
Proof.
  intros Ha o data. subst o data. unfold serve, route.
  rewrite (run_accepted _ _ _ a) by exact Ha.
  destruct (throws env SimplifyPost) as [e|] eqn:Ht;
    [|destruct (Api.s_success (simplify_data env)) eqn:Hok];
    js_eval_all; rewrite ?Ht; js_eval_all; rewrite ?Hok; js_eval_all.
  - split; [reflexivity|]. split; [|split; [discriminate|split]].
    + split; [intros [b Hb]; discriminate Hb | intros [Hx _]; discriminate Hx].
    + intros e' He' Hc. inversion He'; subst. unfold errorMessage.
      rewrite bool_decide_eq_true_2 by exact Hc. reflexivity.
    + discriminate.
  - split; [reflexivity|]. split; [|split; [|split]].
    + split; [tauto | intros _; eexists; reflexivity].
    + intros _ _. eexists. split; [reflexivity|]. repeat split.
    + discriminate.
    + discriminate.
  - split; [reflexivity|]. split; [|split; [|split]].
    + split; [intros [b Hb]; discriminate Hb | intros [_ Hx]; discriminate Hx].
    + discriminate.
    + discriminate.
    + reflexivity.
Qed.

(** ** Uploads and the other users *)

Lemma list_documents_response (env : Env) (h : option string) (b : ObjectId)
    (w : World) :
  authMiddleware env h (initial w) = (Normal b, initial w) ->
  out_response (serve env (GetDocuments h) w) =
    match throws env DocumentsFind with
    | Some e => json 500 (Message (message e))
    | None =>
        json 200
          (DocumentsJson
             (map hydrate
                (sort_desc
                   (List.filter (fun d => Nat.eqb (userId d) b) (documents w)))))
    end.
Proof.
  intros Ha. unfold serve, route. rewrite (run_accepted _ _ _ b) by exact Ha.
  destruct (throws env DocumentsFind) eqn:Ht; js_run_all; reflexivity.
Qed.

(** An upload, however it ends, changes nothing that another user can
    see: the stored documents of every other user are the same before and
    after, and so is the answer to their request for their list. *)
Theorem upload_invisible_to_other_users (env env' : Env)
    (h hb : option string) (part : option FilePart) (a b : ObjectId)
    (w : World) :
  Forall (fun d => _id d < next_oid w) (documents w) ->
  authMiddleware env h (initial w) = (Normal a, initial w) ->
  b <> a ->
  let w' := out_world (serve env (PostUpload h part) w) in
  List.filter (fun d => Nat.eqb (userId d) b) (documents w') =
    List.filter (fun d => Nat.eqb (userId d) b) (documents w)
  /\ (authMiddleware env' hb (initial w) = (Normal b, initial w) ->
      authMiddleware env' hb (initial w') = (Normal b, initial w') ->
      out_response (serve env' (GetDocuments hb) w') =
        out_response (serve env' (GetDocuments hb) w)).
Proof.
  intros Hb Ha Hne w'. subst w'.
  assert (Hf : List.filter (fun d => Nat.eqb (userId d) b)
                 (documents (out_world (serve env (PostUpload h part) w))) =
               List.filter (fun d => Nat.eqb (userId d) b) (documents w)).
  { destruct (upload_effect env h part w Hb)
      as (_ & [(Hdocs & _) | (a' & d & Hdocs & Ha' & _ & Hu & _)]);
      rewrite Hdocs; [reflexivity|].
    rewrite Ha in Ha'. inversion Ha'; subst a'.
    rewrite List.filter_app. simpl.
    replace (Nat.eqb (userId d) b) with false; [now rewrite app_nil_r|].
    symmetry. apply Nat.eqb_neq. congruence. }
  split; [exact Hf|].
  intros H1 H2.
  rewrite (list_documents_response env' hb b _ H1).
  rewrite (list_documents_response env' hb b _ H2).
  now rewrite Hf.
Qed.

End More.

(** ** Concrete requests for the further properties *)

Module ScenarioMore.
Import Reference ReferenceLaws Scenario.

(** Bob's token, issued at time 90 for 3600 seconds. *)
Definition bob_bearer : option string :=
  Some ("Bearer " +:+ jwt_sign 2 "secret" 3600 90).

Lemma bob_passes (failing : Site -> option Error) (w : World) :
  authMiddleware (env_with failing) bob_bearer (initial w) = (Normal 2, initial w).
Proof. vm_compute. reflexivity. Defined.

Lemma w0_documents_below :
  Forall (fun d => _id d < next_oid w0) (documents w0).
Proof. apply Forall_singleton. cbv. apply le_n. Defined.

Lemma w0_well_formed : well_formed w0.
Proof.
  repeat split; simpl.
  - apply List.NoDup_cons; [simpl; intros [H|[]]; discriminate|].
    apply List.NoDup_cons; [simpl; tauto | apply List.NoDup_nil].
  - apply List.NoDup_cons; [simpl; intros [H|[]]; discriminate|].
    apply List.NoDup_cons; [simpl; tauto | apply List.NoDup_nil].
  - apply List.NoDup_cons; [simpl; tauto | apply List.NoDup_nil].
  - apply Forall_cons. split; [cbv; lia|]. apply Forall_singleton. cbv. lia.
  - exact w0_documents_below.
Defined.

Lemma carol_is_new : ~ In "carol@example.com" (map email (users w0)).
Proof. simpl. intros [H|[H|[]]]; discriminate. Defined.

Lemma reading_routes_leave_stores_witness :
  let w' := out_world (serve quiet (GetDocuments bearer) w0) in
  users w' = users w0 /\ documents w' = documents w0
  /\ uploads w' = uploads w0 /\ next_oid w' = next_oid w0.
Proof.
  apply (reading_routes_leave_stores quiet (GetDocuments bearer) w0).
  reflexivity.
Defined.

Lemma signup_new_email_witness :
  let o := serve quiet (PostSignup "Carol" "Clark" "carol@example.com" "pw") w0 in
  let u := {| user_id := 11; firstName := "Carol"; lastName := "Clark";
              email := "carol@example.com";
              password := bcrypt_hash "pw" 10 "salt" |} in
  out_response o = json 201 (Message "User registered successfully")
  /\ users (out_world o) = (users w0 ++ [u])%list
  /\ find_user_by_email "carol@example.com" (users (out_world o)) = Some u.
Proof.
  apply (signup_new_email quiet "Carol" "Clark" "carol@example.com" "pw" w0).
  - exact carol_is_new.
  - reflexivity.
  - reflexivity.
  - reflexivity.
Defined.

Lemma upload_appends_own_document_witness :
  let w' := out_world (serve quiet (PostUpload bearer (Some contract)) w0) in
  users w' = users w0
  /\ ((documents w' = documents w0 /\ 11 <= next_oid w' <= 12)
      \/ exists a d,
           documents w' = (documents w0 ++ [d])%list
           /\ authMiddleware quiet bearer (initial w0) = (Normal a, initial w0)
           /\ _id d = 11 /\ userId d = a
           /\ fileName d = "contract.pdf"
           /\ next_oid w' = 12).
Proof.
  apply (upload_appends_own_document quiet bearer (Some contract) w0).
  exact w0_documents_below.
Defined.

Lemma serve_preserves_well_formed_witness :
  well_formed
    (out_world (serve (env_with unlink_fails) (PostUpload bearer (Some contract)) w0)).
Proof.
  apply (serve_preserves_well_formed (env_with unlink_fails)
           (PostUpload bearer (Some contract)) w0).
  exact w0_well_formed.
Defined.

Lemma reachable_well_formed_witness :
  well_formed
    (out_world
       (serve quiet (PostSignup "Carol" "Clark" "carol@example.com" "pw")
          empty_world)).
Proof.
  apply reachable_well_formed.
  apply reachable_serve. apply reachable_empty.
Defined.

Lemma list_documents_own_newest_first_witness :
  exists ds,
    out_response (serve quiet (GetDocuments bob_bearer) w0) =
      json 200 (DocumentsJson (map hydrate ds))
    /\ Permutation ds (List.filter (fun d => Nat.eqb (userId d) 2) (documents w0))
    /\ Sorted newer_or_same (map hydrate ds)
    /\ (forall d, In d ds -> In d (documents w0) /\ userId d = 2)
    /\ (forall d, In d (map hydrate ds) -> userId d = 2).
Proof.
  apply (list_documents_own_newest_first quiet bob_bearer 2 w0).
  - apply bob_passes.
  - reflexivity.
Defined.

Lemma get_document_of_owner_witness :
  let r := out_response (serve quiet (GetDocument bob_bearer 10) w0) in
  r = json 200 (DocumentJson (hydrate lease))
  /\ (keyTerms lease <> None -> importantDates lease <> None ->
      partiesInvolved lease <> None -> r = json 200 (DocumentJson lease)).
Proof.
  apply (get_document_of_owner quiet bob_bearer lease w0).
  - apply bob_passes.
  - apply List.NoDup_cons; [simpl; tauto | apply List.NoDup_nil].
  - left. reflexivity.
  - reflexivity.
Defined.

Lemma profile_of_token_user_witness :
  let o := serve quiet (GetProfile bearer) w0 in
  (forall u, In u (users w0) -> user_id u = 1 ->
     out_response o = json 200 (UserJson (public u)))
  /\ (~ In 1 (map user_id (users w0)) ->
      out_response o = json 404 (Message "User not found")).
Proof.
  apply (profile_of_token_user quiet bearer 1 w0).
  - apply alice_passes.
  - destruct w0_well_formed as (_ & H & _). exact H.
  - reflexivity.
Defined.

Lemma login_then_profile_witness :
  let o := serve quiet (PostLogin "alice@example.com" "wonderland") w0 in
  exists token,
    out_response o = json 200 (MessageToken "Login successful" token)
    /\ out_response
         (serve quiet (GetProfile (Some ("Bearer " +:+ token))) (out_world o)) =
         json 200 (UserJson (public alice)).
Proof.
  apply (login_then_profile laws quiet quiet
           "alice@example.com" "wonderland" w0 alice).
  - destruct w0_well_formed as (_ & H & _). exact H.
  - reflexivity.
  - reflexivity.
  - reflexivity.
  - reflexivity.
  - reflexivity.
  - reflexivity.
  - reflexivity.
  - reflexivity.
Defined.

Lemma signup_then_login_succeeds_witness :
  let o := serve quiet (PostSignup "Carol" "Clark" "carol@example.com" "pw") w0 in
  out_response o = json 201 (Message "User registered successfully")
  /\ out_response (serve quiet (PostLogin "carol@example.com" "pw") (out_world o)) =
       json 200 (MessageToken "Login successful"
                   (jwt_sign 11 "secret" expiresIn 100)).
Proof.
  apply (signup_then_login_succeeds quiet quiet "Carol" "Clark"
           "carol@example.com" "pw" w0).
  - exact carol_is_new.
  - reflexivity.
  - reflexivity.
  - reflexivity.
  - reflexivity.
  - reflexivity.
  - reflexivity.
  - reflexivity.
Defined.

(** In the scenario of the specification the service sends [key_terms]
    but neither [important_dates] nor [parties_involved]: the upload
    response has no such fields, the document read back has them empty. *)
Lemma upload_then_get_document_witness :
  let o := serve quiet (PostUpload bearer (Some contract)) w0 in
  exists d,
    out_response o =
      json 200 (MessageDocument "Document uploaded and analyzed successfully" d)
    /\ out_response (serve quiet (GetDocument bearer 11) (out_world o)) =
         json 200 (DocumentJson (hydrate d))
    /\ keyTerms d = Some ["confidential"]
    /\ importantDates d = None /\ partiesInvolved d = None
    /\ importantDates (hydrate d) = Some []
    /\ partiesInvolved (hydrate d) = Some [].
Proof.
  destruct (upload_then_get_document quiet quiet bearer bearer 1 contract w0)
    as (d & Hr & Hg & Hk & Him & Hpa & _).
  - exact w0_documents_below.
  - apply alice_passes.
  - reflexivity.
  - vm_compute. discriminate.
  - reflexivity.
  - reflexivity.
  - reflexivity.
  - reflexivity.
  - reflexivity.
  - apply alice_passes.
  - reflexivity.
  - exists d. split; [exact Hr|]. split; [exact Hg|].
    split; [exact Hk|]. split; [exact Him|]. split; [exact Hpa|].
    unfold hydrate. cbn [importantDates partiesInvolved].
    rewrite Him, Hpa. split; reflexivity.
Defined.


Lemma upload_answers_when_catch_block_succeeds_witness :
  let o := serve (env_with unlink_fails) (PostUpload bearer (Some contract)) w0 in
  out_unhandled o = None /\ exists r, out_response o = Some r.
Proof.
  apply (upload_answers_when_catch_block_succeeds (env_with unlink_fails)
           bearer (Some contract) w0); reflexivity.
Defined.

Lemma upload_200_only_after_success_witness :
  let o := serve quiet (PostUpload bearer (Some contract)) w0 in
  exists b,
    out_response o = json 200 b
    /\ out_unhandled o = None
    /\ (upload_path quiet ∉ uploads (out_world o))
    /\ exists d,
         b = MessageDocument "Document uploaded and analyzed successfully" d
         /\ stored 11 (out_world o) = Some d
         /\ status d = analyzed.
Proof.
  destruct (upload_success_world quiet bearer 1 contract w0)
    as (d & Hr & _).
  - exact w0_documents_below.
  - apply alice_passes.
  - reflexivity.
  - vm_compute. discriminate.
  - reflexivity.
  - reflexivity.
  - reflexivity.
  - reflexivity.
  - reflexivity.
  - exists (MessageDocument "Document uploaded and analyzed successfully" d).
    split; [exact Hr|].
    destruct (upload_200_only_after_success quiet bearer (Some contract) w0 _ Hr)
      as (_ & _ & _ & _ & _ & Hu & Hf & Hd).
    repeat split; assumption.
Defined.

Lemma upload_failure_message_witness :
  out_response (serve (env_with classify_fails) (PostUpload bearer (Some contract)) w0) =
    json 500 (Message "Model service is not available. Please try again later.").
Proof.
  destruct (upload_failure_message (env_with classify_fails) bearer 1 contract w0)
    as [H _].
  - apply alice_passes.
  - reflexivity.
  - vm_compute. discriminate.
  - reflexivity.
  - reflexivity.
  - reflexivity.
  - apply (H ECONNREFUSED). reflexivity.
Defined.

Lemma simplify_jargons_without_text_witness :
  serve quiet (PostSimplifyJargons bearer (Some "")) w0 =
    {| out_response := json 400 (Message "No text provided");
       out_unhandled := None; out_world := w0 |}.
Proof.
  apply (simplify_jargons_without_text quiet bearer 1 (Some "") w0).
  - apply alice_passes.
  - right. reflexivity.
Defined.

Lemma simplify_jargons_with_text_witness :
  let o := serve quiet (PostSimplifyJargons bearer (Some "whereas")) w0 in
  trace (out_world o) =
    (trace w0 ++ [ModelPost "http://localhost:5001/simplify-jargons"])%list
  /\ out_response o = json 500 (Message "Jargon simplification failed").
Proof.
  destruct (simplify_jargons_with_text quiet bearer 1 "w" "hereas" w0)
    as (Ht & _ & _ & _ & Hf).
  - apply alice_passes.
  - split; [exact Ht|]. apply Hf; reflexivity.
Defined.

Lemma upload_invisible_to_other_users_witness :
  let w' := out_world (serve (env_with unlink_fails)
                         (PostUpload bearer (Some contract)) w0) in
  List.filter (fun d => Nat.eqb (userId d) 2) (documents w') =
    List.filter (fun d => Nat.eqb (userId d) 2) (documents w0)
  /\ out_response (serve quiet (GetDocuments bob_bearer) w') =
       out_response (serve quiet (GetDocuments bob_bearer) w0).
Proof.
  destruct (upload_invisible_to_other_users (env_with unlink_fails) quiet
              bearer bob_bearer (Some contract) 1 2 w0) as [Hf Hr].
  - exact w0_documents_below.
  - apply alice_passes.
  - discriminate.
  - split; [exact Hf|]. apply Hr; apply bob_passes.
Defined.

End ScenarioMore.
